(** * Voice-to-terrain parameter pipeline ([voice_processor.py])

    A shallow embedding of the interpretation pipeline of
    [VoiceTerrainProcessor]: the parameter validator, the keyword
    heuristic, the remote-backed analyzer with its fallback, the
    transcription fallback and the orchestrator.

    Python values are an inductive type; dictionaries are finite maps
    with string keys; floats are IEEE 754 binary64 numbers in the
    inductive presentation of the Standard Library ([spec_float]), so
    that products round as they do in Python; exceptions are an error
    monad. *)

From Stdlib Require Import ZArith String Ascii Strings.Byte List Lia.
From Stdlib Require Import Floats.SpecFloat.
From stdpp Require Import gmap strings.

Set Warnings "-register-all".
Local Open Scope Z_scope.

(** ** Exceptions *)

Inductive exn : Type :=
  | TypeError
  | ValueError
  | OverflowError
  | KeyError
  | JSONDecodeError
  | RemoteError.

Inductive result (A : Type) : Type :=
  | Ok (a : A)
  | Raise (e : exn).
Arguments Ok {A} a.
Arguments Raise {A} e.

#[global] Instance result_ret : MRet result := @Ok.
#[global] Instance result_bind : MBind result :=
  fun A B f m => match m with Ok a => f a | Raise e => Raise e end.

(** ** Python values *)

Inductive pyval : Type :=
  | PNone
  | PBool (b : bool)
  | PInt (z : Z)
  | PFloat (f : spec_float)
  | PStr (s : string)
  | PList (l : list pyval)
  | PDict (d : gmap string pyval).

(** *** binary64 literals and products *)

Definition prec : Z := 53.
Definition emax : Z := 1024.

Definition float_of_Z (z : Z) : spec_float := binary_normalize prec emax z 0 false.

(** The float written [n/d] in decimal notation ([dec 5 100] is the
    literal [0.05]): both integers are exact in binary64 and the
    division rounds to nearest, as the reading of a literal does. *)
Definition dec (n d : Z) : spec_float :=
  SFdiv prec emax (float_of_Z n) (float_of_Z d).

Definition fmul (x y : spec_float) : spec_float := SFmul prec emax x y.

(** *** Numbers and their comparison

    [isinstance(value, (int, float))] holds of [bool], [int] and
    [float].  Python compares numbers of mixed types by their exact
    mathematical value; a number is viewed as [m * 2^e] or as one of
    the special floats. *)

Definition isinstance_number (v : pyval) : bool :=
  match v with
  | PBool _ | PInt _ | PFloat _ => true
  | _ => false
  end.

Inductive xreal : Type :=
  | XNaN
  | XInf (neg : bool)
  | XFin (m e : Z).

Definition xreal_of_float (f : spec_float) : xreal :=
  match f with
  | S754_zero _ => XFin 0 0
  | S754_infinity s => XInf s
  | S754_nan => XNaN
  | S754_finite s m e => XFin (cond_Zopp s (Zpos m)) e
  end.

Definition xreal_of (v : pyval) : option xreal :=
  match v with
  | PBool b => Some (XFin (Z.b2z b) 0)
  | PInt z => Some (XFin z 0)
  | PFloat f => Some (xreal_of_float f)
  | _ => None
  end.

Definition xcompare (x y : xreal) : option comparison :=
  match x, y with
  | XNaN, _ | _, XNaN => None
  | XInf s1, XInf s2 =>
      Some (match s1, s2 with
            | true, false => Lt
            | false, true => Gt
            | _, _ => Eq
            end)
  | XInf s, XFin _ _ => Some (if s then Lt else Gt)
  | XFin _ _, XInf s => Some (if s then Gt else Lt)
  | XFin m1 e1, XFin m2 e2 =>
      let e := Z.min e1 e2 in
      Some (Z.compare (m1 * 2 ^ (e1 - e)) (m2 * 2 ^ (e2 - e)))
  end.

Definition py_compare (a b : pyval) : result (option comparison) :=
  match xreal_of a, xreal_of b with
  | Some x, Some y => Ok (xcompare x y)
  | _, _ => Raise TypeError
  end.

(** [a < b] *)
Definition py_lt (a b : pyval) : result bool :=
  c ← py_compare a b;
  mret (match c with Some Lt => true | _ => false end).

(** [a > b] *)
Definition py_gt (a b : pyval) : result bool :=
  c ← py_compare a b;
  mret (match c with Some Gt => true | _ => false end).

(** [min(a, b)] and [max(a, b)] with two positional arguments: the
    first argument is kept unless the second is strictly smaller
    (larger). *)
Definition py_min (a b : pyval) : result pyval :=
  c ← py_lt b a; mret (if c : bool then b else a).

Definition py_max (a b : pyval) : result pyval :=
  c ← py_gt b a; mret (if c : bool then b else a).

(** [int(v)] of a number: truncation towards zero.  The parsing of
    strings by [int] is outside the model; the program applies [int]
    to numbers only. *)
Definition py_int (v : pyval) : result pyval :=
  match v with
  | PBool b => Ok (PInt (Z.b2z b))
  | PInt z => Ok (PInt z)
  | PFloat (S754_zero _) => Ok (PInt 0)
  | PFloat (S754_finite s m e) => Ok (PInt (cond_Zopp s (Z.shiftl (Zpos m) e)))
  | PFloat (S754_infinity _) => Raise OverflowError
  | PFloat S754_nan => Raise ValueError
  | _ => Raise TypeError
  end.

(** [a * b] on floats (the only product the program takes). *)
Definition py_mul (a b : pyval) : result pyval :=
  match a, b with
  | PFloat x, PFloat y => Ok (PFloat (fmul x y))
  | _, _ => Raise TypeError
  end.

(** *** Containers *)

(** [key in container] for a string [key]. *)
Fixpoint contains (sub s : string) : bool :=
  String.prefix sub s
  || match s with
     | EmptyString => false
     | String _ s' => contains sub s'
     end.

Definition py_str_eq (key : string) (v : pyval) : bool :=
  match v with
  | PStr s => String.eqb key s
  | _ => false
  end.

Definition py_contains (container : pyval) (key : string) : result bool :=
  match container with
  | PDict d => Ok (match d !! key with Some _ => true | None => false end)
  | PList l => Ok (existsb (py_str_eq key) l)
  | PStr s => Ok (contains key s)
  | _ => Raise TypeError
  end.

(** [container[key]] for a string [key]. *)
Definition py_getitem (container : pyval) (key : string) : result pyval :=
  match container with
  | PDict d => match d !! key with Some v => Ok v | None => Raise KeyError end
  | _ => Raise TypeError
  end.

Definition dict_getitem (d : gmap string pyval) (key : string) : result pyval :=
  py_getitem (PDict d) key.

(** *** Strings *)

Definition lower_ascii (c : ascii) : ascii :=
  let n := nat_of_ascii c in
  if ((65 <=? n) && (n <=? 90))%nat then ascii_of_nat (n + 32) else c.

(** [s.lower()], on texts of one-byte characters. *)
Fixpoint lower (s : string) : string :=
  match s with
  | EmptyString => EmptyString
  | String c s' => String (lower_ascii c) (lower s')
  end.

(** [any(word in text for word in words)] *)
Definition any_in (words : list string) (text : string) : bool :=
  existsb (fun word => contains word text) words.

Definition is_space (c : ascii) : bool :=
  let n := nat_of_ascii c in
  (((9 <=? n) && (n <=? 13)) || ((28 <=? n) && (n <=? 32)))%nat.

Fixpoint lstrip (s : string) : string :=
  match s with
  | EmptyString => EmptyString
  | String c s' => if is_space c then lstrip s' else s
  end.

Fixpoint rstrip (s : string) : string :=
  match s with
  | EmptyString => EmptyString
  | String c s' =>
      match rstrip s' with
      | EmptyString => if is_space c then EmptyString else String c EmptyString
      | t => String c t
      end
  end.

(** [s.strip()] *)
Definition strip (s : string) : string := rstrip (lstrip s).

(** *** Dictionaries *)

(** A dictionary display [{k1: v1, ...}] and [d.update({k1: v1, ...})]:
    the entries are stored from left to right. *)
Definition dict_update (d : gmap string pyval) (entries : list (string * pyval))
  : gmap string pyval :=
  foldl (fun acc kv => <[kv.1 := kv.2]> acc) d entries.

Definition py_dict (entries : list (string * pyval)) : gmap string pyval :=
  dict_update ∅ entries.

(** [d[key] *= x] *)
Definition dict_imul (d : gmap string pyval) (key : string) (x : pyval)
  : result (gmap string pyval) :=
  v ← dict_getitem d key;
  r ← py_mul v x;
  mret (<[key := r]> d).

(** [d[key] = int(d[key])] *)
Definition dict_to_int (d : gmap string pyval) (key : string)
  : result (gmap string pyval) :=
  v ← dict_getitem d key;
  i ← py_int v;
  mret (<[key := i]> d).

(** A [for] loop whose body may raise. *)
Fixpoint for_each {A S : Type} (body : S -> A -> result S) (s : S) (l : list A)
  : result S :=
  match l with
  | [] => Ok s
  | x :: l' => s' ← body s x; for_each body s' l'
  end.

(** [int.from_bytes(bs, byteorder='big')] *)
Definition int_from_bytes_big (bs : list Byte.byte) : Z :=
  fold_left (fun acc b => acc * 256 + Z.of_N (Byte.to_N b)) bs 0.

Definition flt (n d : Z) : pyval := PFloat (dec n d).

(** ** The processor and its collaborators *)

(** [self]: the remote client and the speech model, each absent when
    its set-up failed.  The client maps the request text (wrapped in the
    fixed prompt) to the stripped content of the first choice, or
    raises; the model maps a path to the text of its result, or
    raises. *)
Record VoiceTerrainProcessor : Type := {
  openai_client : option (string -> result string);
  whisper_model : option (string -> result string)
}.

(** What the program asks of the operating system and of the
    libraries: [os.path.exists], [Path(p).stem], [json.loads] and the
    four bytes of [os.urandom(4)]. *)
Record World : Type := {
  path_exists : string -> bool;
  path_stem : string -> string;
  json_loads : string -> result pyval;
  urandom4 : list Byte.byte
}.

(** *** [validate_parameters] *)

Definition constraints : list (string * (pyval * pyval)) :=
  [ ("seed", (PInt 0, PInt 10000));
    ("frequency", (flt 1 100, flt 1 1));
    ("amplitude", (flt 5 10, flt 20 1));
    ("octaves", (PInt 1, PInt 6));
    ("lacunarity", (flt 15 10, flt 3 1));
    ("persistence", (flt 1 10, flt 8 10));
    ("terrain_type", (PInt 0, PInt 5));
    ("erosion", (flt 0 1, flt 1 1));
    ("plateau", (flt 0 1, flt 15 1)) ].

Definition defaults : gmap string pyval :=
  py_dict
    [ ("seed", PInt 42);
      ("frequency", flt 1 10);
      ("amplitude", flt 5 1);
      ("octaves", PInt 3);
      ("lacunarity", flt 2 1);
      ("persistence", flt 5 10);
      ("terrain_type", PInt 1);
      ("erosion", flt 0 1);
      ("plateau", flt 0 1) ].

(** The body of the loop over [constraints.items()]. *)
Definition validate_entry (params : pyval) (validated : gmap string pyval)
    (c : string * (pyval * pyval)) : result (gmap string pyval) :=
  let '(key, (min_val, max_val)) := c in
  present ← py_contains params key;
  if present : bool then
    value ← py_getitem params key;
    if isinstance_number value then
      lo ← py_min max_val value;
      v ← py_max min_val lo;
      mret (<[key := v]> validated)
    else
      mret (<[key := min_val]> validated)
  else
    d ← dict_getitem defaults key;
    mret (<[key := d]> validated).

Definition validate_parameters (params : pyval) : result (gmap string pyval) :=
  validated ← for_each (validate_entry params) ∅ constraints;
  validated ← dict_to_int validated "terrain_type";
  validated ← dict_to_int validated "seed";
  validated ← dict_to_int validated "octaves";
  mret validated.

(** *** [fallback_analysis] *)

Definition fallback_analysis (entropy : list Byte.byte) (text : string)
  : result (gmap string pyval) :=
  let text_lower := lower text in
  let params :=
    py_dict
      [ ("seed", PInt (int_from_bytes_big entropy mod 10000));
        ("frequency", flt 1 10);
        ("amplitude", flt 5 1);
        ("octaves", PInt 3);
        ("lacunarity", flt 2 1);
        ("persistence", flt 5 10);
        ("terrain_type", PInt 1);
        ("erosion", flt 0 1);
        ("plateau", flt 0 1) ] in
  (* terrain type keywords *)
  let params :=
    if any_in ["mountain"; "mountains"; "peak"; "peaks"] text_lower then
      dict_update params
        [("terrain_type", PInt 2); ("amplitude", flt 15 1); ("frequency", flt 5 100)]
    else if any_in ["hill"; "hills"; "hilly"; "rolling"] text_lower then
      dict_update params
        [("terrain_type", PInt 1); ("amplitude", flt 8 1); ("frequency", flt 1 10)]
    else if any_in ["valley"; "valleys"; "depression"; "low"] text_lower then
      dict_update params [("terrain_type", PInt 3); ("amplitude", flt 6 1)]
    else if any_in ["flat"; "plain"; "plains"; "level"] text_lower then
      dict_update params [("terrain_type", PInt 0); ("amplitude", flt 1 1)]
    else if any_in ["plateau"; "mesa"; "tableland"] text_lower then
      dict_update params
        [("terrain_type", PInt 4); ("plateau", flt 5 1); ("amplitude", flt 8 1)]
    else params in
  (* size modifiers *)
  params ←
    (if any_in ["large"; "big"; "huge"; "massive"] text_lower then
       params ← dict_imul params "frequency" (flt 5 10);
       dict_imul params "amplitude" (flt 15 10)
     else if any_in ["small"; "tiny"; "little"; "mini"] text_lower then
       params ← dict_imul params "frequency" (flt 2 1);
       dict_imul params "amplitude" (flt 7 10)
     else mret params);
  (* detail modifiers *)
  let params :=
    if any_in ["rough"; "jagged"; "rocky"; "detailed"] text_lower then
      <["lacunarity" := flt 25 10]> (<["octaves" := PInt 5]> params)
    else if any_in ["smooth"; "gentle"; "soft"; "simple"] text_lower then
      <["persistence" := flt 3 10]> (<["octaves" := PInt 2]> params)
    else params in
  (* water features *)
  let params :=
    if any_in ["river"; "stream"; "water"; "creek"] text_lower then
      <["erosion" := flt 3 10]> params
    else params in
  mret params.

(** *** [analyze_terrain_request] *)

Definition analyze_terrain_request (self : VoiceTerrainProcessor) (w : World)
    (text : string) : result (gmap string pyval) :=
  match openai_client self with
  | None => fallback_analysis (urandom4 w) text
  | Some client =>
      let attempt :=
        response_text ← client text;
        parameters ← json_loads w response_text;
        validate_parameters parameters in
      match attempt with
      | Ok validated => Ok validated
      | Raise JSONDecodeError => fallback_analysis (urandom4 w) text
      | Raise _ => fallback_analysis (urandom4 w) text
      end
  end.

(** *** [fallback_transcription] and [transcribe_audio] *)

Definition fallback_phrases : list (string * string) :=
  [ ("mountain", "I want some mountains");
    ("hill", "Make rolling hills");
    ("valley", "Create valleys with a river");
    ("flat", "I want a flat plain");
    ("rough", "Make rough rocky terrain");
    ("smooth", "Create smooth gentle hills") ]%string.

Definition default_phrase : string := "Create hilly terrain".

(** The loop over [fallback_phrases.items()] returns at the first
    keyword found in the file name. *)
Fixpoint first_phrase (table : list (string * string)) (filename : string)
  : option string :=
  match table with
  | [] => None
  | (keyword, phrase) :: rest =>
      if contains keyword filename then Some phrase
      else first_phrase rest filename
  end.

Definition fallback_transcription (w : World) (audio_file_path : string) : string :=
  let filename := lower (path_stem w audio_file_path) in
  match first_phrase fallback_phrases filename with
  | Some phrase => phrase
  | None => default_phrase
  end.

Definition transcribe_audio (self : VoiceTerrainProcessor) (w : World)
    (audio_file_path : string) : string :=
  match whisper_model self with
  | None => fallback_transcription w audio_file_path
  | Some model =>
      match model audio_file_path with
      | Ok raw => strip raw
      | Raise _ => fallback_transcription w audio_file_path
      end
  end.

(** *** [extract_keywords] *)

Definition terrain_keywords : list string :=
  [ "mountain"; "mountains"; "hill"; "hills"; "valley"; "valleys";
    "flat"; "plain"; "plains"; "plateau"; "mesa" ]%string.

Definition feature_keywords : list string :=
  [ "river"; "stream"; "water"; "rough"; "smooth"; "jagged";
    "gentle"; "steep"; "rocky"; "grassy"; "forest" ]%string.

Definition size_keywords : list string :=
  [ "large"; "big"; "huge"; "small"; "tiny"; "massive"; "mini" ]%string.

Definition extract_keywords (text : string) : list string :=
  let text_lower := lower text in
  let all_keywords := terrain_keywords ++ feature_keywords ++ size_keywords in
  List.filter (fun keyword => contains keyword text_lower) all_keywords.

(** *** [process_voice_command]

    Besides the record it returns, the orchestrator reports the stages
    it has entered, in order. *)

Inductive stage : Type :=
  | Transcription
  | Analysis
  | KeywordExtraction.

Definition process_voice_command (self : VoiceTerrainProcessor) (w : World)
    (audio_file_path : string) : list stage * result (gmap string pyval) :=
  if negb (path_exists w audio_file_path) then
    ([], Ok {[ "error" := PStr ("Audio file not found: " +:+ audio_file_path) ]})
  else
    let text := transcribe_audio self w audio_file_path in
    if String.eqb text "" then
      ([Transcription], Ok {[ "error" := PStr "Failed to transcribe audio" ]})
    else
      match analyze_terrain_request self w text with
      | Raise e => ([Transcription; Analysis], Raise e)
      | Ok parameters =>
          ([Transcription; Analysis; KeywordExtraction],
           Ok (py_dict
                 [ ("text", PStr text);
                   ("parameters", PDict parameters);
                   ("keywords", PList (map PStr (extract_keywords text)));
                   ("success", PBool true) ]))
      end.

(** ** Ranges

    [num_le a b] is [a <= b] on numbers; [in_range lo hi v] is
    [lo <= v <= hi]. *)

Definition num_le (a b : pyval) : bool :=
  match py_compare a b with
  | Ok (Some (Lt | Eq)) => true
  | _ => false
  end.

Definition in_range (lo hi v : pyval) : bool := num_le lo v && num_le v hi.

(** [max(lo, min(hi, v))] *)
Definition clamp (lo hi v : pyval) : result pyval :=
  m ← py_min hi v; py_max lo m.

(** The values that clamping to [lo, hi] yields: a bound itself, or a
    number strictly between the bounds. *)
Definition settled (lo hi v : pyval) : Prop :=
  v = lo \/ v = hi \/ (py_compare v hi = Ok (Some Lt) /\ py_compare v lo = Ok (Some Gt)).

(** *** Closed forms used by the statements *)

(** The record with the nine fields of the schema. *)
Definition mk_record
    (seed frequency amplitude octaves lacunarity persistence
       terrain_type erosion plateau : pyval) : gmap string pyval :=
  py_dict
    [ ("seed", seed); ("frequency", frequency); ("amplitude", amplitude);
      ("octaves", octaves); ("lacunarity", lacunarity);
      ("persistence", persistence); ("terrain_type", terrain_type);
      ("erosion", erosion); ("plateau", plateau) ].

Definition schema_keys : list string := map fst constraints.

(** What the loop stores under [key], as a function of the mapping. *)
Definition field_value (d : gmap string pyval) (key : string) (lo hi : pyval)
  : result pyval :=
  match d !! key with
  | Some value => if isinstance_number value then clamp lo hi value else Ok lo
  | None => dict_getitem defaults key
  end.

(** The heuristic analyzer field by field, as functions of the
    lower-cased text. *)

Definition mountain_words : list string := ["mountain"; "mountains"; "peak"; "peaks"]%string.
Definition hill_words : list string := ["hill"; "hills"; "hilly"; "rolling"]%string.
Definition valley_words : list string := ["valley"; "valleys"; "depression"; "low"]%string.
Definition flat_words : list string := ["flat"; "plain"; "plains"; "level"]%string.
Definition plateau_words : list string := ["plateau"; "mesa"; "tableland"]%string.
Definition large_words : list string := ["large"; "big"; "huge"; "massive"]%string.
Definition small_words : list string := ["small"; "tiny"; "little"; "mini"]%string.
Definition rough_words : list string := ["rough"; "jagged"; "rocky"; "detailed"]%string.
Definition smooth_words : list string := ["smooth"; "gentle"; "soft"; "simple"]%string.
Definition water_words : list string := ["river"; "stream"; "water"; "creek"]%string.

Definition heuristic_terrain_type (t : string) : Z :=
  if any_in mountain_words t then 2
  else if any_in hill_words t then 1
  else if any_in valley_words t then 3
  else if any_in flat_words t then 0
  else if any_in plateau_words t then 4
  else 1.

Definition heuristic_scale (t : string) (up down x : spec_float) : spec_float :=
  if any_in large_words t then fmul x up
  else if any_in small_words t then fmul x down
  else x.

Definition heuristic_amplitude (t : string) : spec_float :=
  heuristic_scale t (dec 15 10) (dec 7 10)
    (if any_in mountain_words t then dec 15 1
     else if any_in hill_words t then dec 8 1
     else if any_in valley_words t then dec 6 1
     else if any_in flat_words t then dec 1 1
     else if any_in plateau_words t then dec 8 1
     else dec 5 1).

Definition heuristic_frequency (t : string) : spec_float :=
  heuristic_scale t (dec 5 10) (dec 2 1)
    (if any_in mountain_words t then dec 5 100 else dec 1 10).

Definition heuristic_plateau (t : string) : spec_float :=
  if any_in mountain_words t then dec 0 1
  else if any_in hill_words t then dec 0 1
  else if any_in valley_words t then dec 0 1
  else if any_in flat_words t then dec 0 1
  else if any_in plateau_words t then dec 5 1
  else dec 0 1.

Definition heuristic_octaves (t : string) : Z :=
  if any_in rough_words t then 5 else if any_in smooth_words t then 2 else 3.

Definition heuristic_lacunarity (t : string) : spec_float :=
  if any_in rough_words t then dec 25 10 else dec 2 1.

Definition heuristic_persistence (t : string) : spec_float :=
  if any_in rough_words t then dec 5 10
  else if any_in smooth_words t then dec 3 10 else dec 5 10.

Definition heuristic_erosion (t : string) : spec_float :=
  if any_in water_words t then dec 3 10 else dec 0 1.

(** *** Names used by the further properties *)

(** The keys that [validate_parameters] passes through [int]. *)
Definition int_keys : list string := ["terrain_type"; "seed"; "octaves"]%string.

Definition int_key (key : string) : bool := existsb (String.eqb key) int_keys.

(** The catalogue of [extract_keywords]. *)
Definition all_keywords : list string :=
  terrain_keywords ++ feature_keywords ++ size_keywords.

(** ** Start-up and entry point *)

(** What start-up asks of the machine: whether the two libraries
    import, the value of [OPENAI_API_KEY], the key file next to the
    script (absent, or the outcome of [read_text()]), the constructor
    [OpenAI(api_key=...)], [whisper.load_model("base")], and [str(e)]
    of an exception. *)
Record Host : Type := {
  openai_installed : bool;
  whisper_installed : bool;
  getenv_api_key : option string;
  api_key_file : option (result string);
  new_client : string -> result (string -> result string);
  load_model : result (string -> result string);
  exn_str : exn -> string
}.

(** [not api_key] for the result of [os.getenv]. *)
Definition falsy_str (o : option string) : bool :=
  match o with
  | None => true
  | Some s => String.eqb s ""
  end.

(** [setup_openai]: the client it leaves in [self.openai_client]. *)
Definition setup_openai (h : Host) : result (option (string -> result string)) :=
  if negb (openai_installed h) then Ok None
  else
    api_key ←
      (if falsy_str (getenv_api_key h) then
         match api_key_file h with
         | Some contents => text ← contents; mret (Some (strip text))
         | None => mret None
         end
       else mret (getenv_api_key h));
    match api_key with
    | None => Ok None
    | Some api_key =>
        match new_client h api_key with
        | Ok client => Ok (Some client)
        | Raise _ => Ok None
        end
    end.

(** [setup_whisper]: the model it leaves in [self.whisper_model]. *)
Definition setup_whisper (h : Host) : option (string -> result string) :=
  if negb (whisper_installed h) then None
  else
    match load_model h with
    | Ok model => Some model
    | Raise _ => None
    end.

(** [VoiceTerrainProcessor.__init__] *)
Definition VoiceTerrainProcessor_init (h : Host) : result VoiceTerrainProcessor :=
  client ← setup_openai h;
  let model := setup_whisper h in
  mret {| openai_client := client; whisper_model := model |}.

(** What the script writes to standard output: a line of text, or
    [json.dumps] of an object with the given [indent]. *)
Inductive printed : Type :=
  | Text (line : string)
  | JsonDump (indent : option Z) (obj : gmap string pyval).

(** The [print] calls of the two guarded imports. *)
Definition import_module (h : Host) : list printed :=
  (if openai_installed h then []
   else [Text "Warning: OpenAI library not installed. Install with: pip install openai"])
  ++
  (if whisper_installed h then []
   else [Text "Warning: Whisper library not installed. Install with: pip install openai-whisper"]).

Definition usage_record : gmap string pyval :=
  {[ "error" := PStr "Usage: python voice_processor.py <audio_file_path>" ]}.

(** [main], on [sys.argv]. *)
Definition main (h : Host) (w : World) (argv : list string) : list printed :=
  match argv with
  | [_; audio_file_path] =>
      let attempt :=
        processor ← VoiceTerrainProcessor_init h;
        (process_voice_command processor w audio_file_path).2 in
      match attempt with
      | Ok result => [JsonDump (Some 2) result]
      | Raise e => [JsonDump None {[ "error" := PStr (exn_str h e) ]}]
      end
  | _ => [JsonDump None usage_record]
  end.

(** The script run as a program: the imports, then [main]. *)
Definition script (h : Host) (w : World) (argv : list string) : list printed :=
  import_module h ++ main h w argv.

(** ** Sanity checks of the embedding

    The literal [0.1] is the binary64 number 0x3FB999999999999A, and
    products round: [6.0 * 0.7] is not the literal [4.2]. *)

Example dec_one_tenth : dec 1 10 = S754_finite false 7205759403792794 (-56).
Proof. vm_compute. reflexivity. Qed.

Example fmul_rounds :
  fmul (dec 6 1) (dec 7 10) = S754_finite false 4728779608739020 (-50) /\
  dec 42 10 = S754_finite false 4728779608739021 (-50).
Proof. split; vm_compute; reflexivity. Qed.

Example validate_parameters_not_a_container :
  validate_parameters (PInt 3) = Raise TypeError.
Proof. reflexivity. Qed.

Example strip_example : strip "  rolling hills  " = "rolling hills"%string.
Proof. reflexivity. Qed.

Example extract_keywords_example :
  extract_keywords "Make some MOUNTAINS with rivers" =
  ["mountain"; "mountains"; "river"]%string.
Proof. reflexivity. Qed.

Section Comparison.

Lemma xcompare_flip (x y : xreal) :
  xcompare y x = option_map CompOpp (xcompare x y).
Proof.
  destruct x as [|[]|m1 e1], y as [|[]|m2 e2]; try reflexivity.
  cbn. rewrite (Z.min_comm e2 e1). f_equal. apply Z.compare_antisym.
Qed.

Lemma xcompare_int (a b : Z) : xcompare (XFin a 0) (XFin b 0) = Some (a ?= b).
Proof.
  unfold xcompare. rewrite Z.min_id, Z.sub_diag, Z.pow_0_r, !Z.mul_1_r.
  reflexivity.
Qed.

Lemma py_compare_flip (a b : pyval) (c : option comparison) :
  py_compare a b = Ok c -> py_compare b a = Ok (option_map CompOpp c).
Proof.
  unfold py_compare.
  destruct (xreal_of a) as [x|], (xreal_of b) as [y|]; try discriminate.
  intros [= <-]. f_equal. apply xcompare_flip.
Qed.

Lemma xcompare_refl (x : xreal) (c : comparison) (y : xreal) :
  xcompare x y = Some c -> xcompare x x = Some Eq.
Proof.
  destruct x as [|[]|m e], y as [|[]|m' e']; cbn; intros H;
    try discriminate; try reflexivity; f_equal; apply Z.compare_refl.
Qed.

Lemma py_compare_refl_l (a b : pyval) (c : comparison) :
  py_compare a b = Ok (Some c) -> py_compare a a = Ok (Some Eq).
Proof.
  unfold py_compare.
  destruct (xreal_of a) as [x|], (xreal_of b) as [y|]; try discriminate.
  intros [= H]. f_equal. eapply xcompare_refl, H.
Qed.

Lemma py_compare_refl_r (a b : pyval) (c : comparison) :
  py_compare a b = Ok (Some c) -> py_compare b b = Ok (Some Eq).
Proof.
  intros H. apply py_compare_flip in H. eapply py_compare_refl_l, H.
Qed.

End Comparison.

Section Clamp.

Variables lo hi : pyval.
Hypothesis lo_lt_hi : py_compare lo hi = Ok (Some Lt).

Lemma clamp_settled (v : pyval) :
  isinstance_number v = true ->
  exists r, clamp lo hi v = Ok r /\ settled lo hi r.
Proof.
  intros Hv. unfold clamp, py_min, py_max, py_lt, py_gt.
  pose proof (py_compare_flip _ _ _ lo_lt_hi) as Hflip. cbn in Hflip.
  assert (exists c, py_compare v hi = Ok c) as [c Hc].
  { unfold py_compare in *. destruct (xreal_of hi); [|destruct (xreal_of lo); discriminate].
    destruct v; try discriminate; cbn; eauto. }
  assert (exists c, py_compare v lo = Ok c) as [c' Hc'].
  { unfold py_compare in *. destruct (xreal_of lo); [|discriminate].
    destruct v; try discriminate; cbn; eauto. }
  rewrite Hc. cbn.
  destruct c as [[]|]; cbn; rewrite ?Hflip, ?Hc'; cbn;
    try (eexists; split; [reflexivity | right; left; reflexivity]).
  destruct c' as [[]|]; cbn; eexists; (split; [reflexivity|]);
    unfold settled; auto.
Qed.

Lemma settled_clamp (v : pyval) : settled lo hi v -> clamp lo hi v = Ok v.
Proof.
  pose proof (py_compare_flip _ _ _ lo_lt_hi) as Hflip. cbn in Hflip.
  pose proof (py_compare_refl_l _ _ _ lo_lt_hi) as Hlo.
  pose proof (py_compare_refl_r _ _ _ lo_lt_hi) as Hhi.
  unfold clamp, py_min, py_max, py_lt, py_gt.
  intros [-> | [-> | [H1 H2]]].
  - rewrite lo_lt_hi. cbn. rewrite Hlo. reflexivity.
  - rewrite Hhi. cbn. rewrite Hflip. reflexivity.
  - rewrite H1. cbn. rewrite H2. reflexivity.
Qed.

Lemma settled_in_range (v : pyval) : settled lo hi v -> in_range lo hi v = true.
Proof.
  pose proof (py_compare_refl_l _ _ _ lo_lt_hi) as Hlo.
  pose proof (py_compare_refl_r _ _ _ lo_lt_hi) as Hhi.
  unfold in_range, num_le.
  intros [-> | [-> | [H1 H2]]].
  - rewrite Hlo, lo_lt_hi. reflexivity.
  - rewrite Hhi, lo_lt_hi. reflexivity.
  - apply py_compare_flip in H2. cbn in H2. rewrite H1, H2. reflexivity.
Qed.

End Clamp.

(** ** Truncation of a clamped number *)

Section Truncation.

Variables zlo zhi : Z.
Hypothesis zlo_nonneg : 0 <= zlo.
Hypothesis zlo_le_zhi : zlo <= zhi.

Lemma xcompare_int_float_bounds (s : bool) (m : positive) (e : Z) :
  xcompare (XFin (cond_Zopp s (Zpos m)) e) (XFin zhi 0) = Some Lt ->
  xcompare (XFin (cond_Zopp s (Zpos m)) e) (XFin zlo 0) = Some Gt ->
  zlo <= cond_Zopp s (Z.shiftl (Zpos m) e) <= zhi.
Proof.
  cbn. intros [= Hhi] [= Hlo].
  apply -> Z.compare_lt_iff in Hhi. apply -> Z.compare_gt_iff in Hlo.
  destruct (Z.le_gt_cases 0 e) as [He | He].
  - rewrite Z.min_r in Hhi, Hlo by lia.
    rewrite !Z.sub_0_r, !Z.pow_0_r, !Z.mul_1_r in Hhi, Hlo.
    rewrite Z.shiftl_mul_pow2 by lia.
    assert (0 < 2 ^ e) by (apply Z.pow_pos_nonneg; lia).
    destruct s; cbn [cond_Zopp] in *; nia.
  - rewrite Z.min_l in Hhi, Hlo by lia.
    rewrite !Z.sub_diag, !Z.sub_0_l, !Z.pow_0_r, !Z.mul_1_r in Hhi, Hlo.
    rewrite Z.shiftl_div_pow2 by lia.
    assert (0 < 2 ^ (- e)) by (apply Z.pow_pos_nonneg; lia).
    destruct s; cbn [cond_Zopp] in *; [nia|].
    split.
    + apply Z.div_le_lower_bound; lia.
    + apply Z.lt_le_incl, Z.div_lt_upper_bound; lia.
Qed.

Lemma py_int_settled (v : pyval) :
  settled (PInt zlo) (PInt zhi) v ->
  exists z, py_int v = Ok (PInt z) /\ zlo <= z <= zhi.
Proof.
  intros [-> | [-> | [Hhi Hlo]]].
  - exists zlo. split; [reflexivity | lia].
  - exists zhi. split; [reflexivity | lia].
  - destruct v as [|b|z|f| | |]; try discriminate.
    + exists (Z.b2z b). split; [reflexivity|].
      unfold py_compare in Hhi, Hlo. cbn [xreal_of] in Hhi, Hlo.
      rewrite xcompare_int in Hhi, Hlo.
      injection Hhi as Hhi. injection Hlo as Hlo.
      apply -> Z.compare_lt_iff in Hhi. apply -> Z.compare_gt_iff in Hlo. lia.
    + exists z. split; [reflexivity|].
      unfold py_compare in Hhi, Hlo. cbn [xreal_of] in Hhi, Hlo.
      rewrite xcompare_int in Hhi, Hlo.
      injection Hhi as Hhi. injection Hlo as Hlo.
      apply -> Z.compare_lt_iff in Hhi. apply -> Z.compare_gt_iff in Hlo. lia.
    + destruct f as [s|s| |s m e].
      * unfold py_compare in Hlo. cbn [xreal_of xreal_of_float] in Hlo.
        rewrite xcompare_int in Hlo.
        assert (0 > zlo) by (unfold Z.gt; congruence). lia.
      * destruct s; discriminate.
      * discriminate.
      * eexists. split; [reflexivity|].
        unfold py_compare in Hhi, Hlo. cbn [xreal_of xreal_of_float] in Hhi, Hlo.
        apply xcompare_int_float_bounds; congruence.
Qed.

Lemma int_in_range_settled (z : Z) :
  zlo <= z <= zhi -> settled (PInt zlo) (PInt zhi) (PInt z).
Proof.
  intros Hz. unfold settled.
  destruct (Z.eq_dec z zlo) as [-> | Hlo]; [auto|].
  destruct (Z.eq_dec z zhi) as [-> | Hhi]; [auto|].
  right; right. unfold py_compare. cbn [xreal_of]. rewrite !xcompare_int.
  split; do 2 f_equal.
  - apply Z.compare_lt_iff. lia.
  - apply Z.compare_gt_iff. lia.
Qed.

End Truncation.

(** ** The validator on a mapping *)

Lemma validate_entry_eq d acc key lo hi :
  validate_entry (PDict d) acc (key, (lo, hi)) =
  v ← field_value d key lo hi; mret (<[key := v]> acc).
Proof.
  unfold validate_entry, field_value, clamp. cbn.
  destruct (d !! key) as [value|]; cbn; [|reflexivity].
  destruct (isinstance_number value); [|reflexivity].
  destruct (py_min hi value); cbn; [|reflexivity].
  destruct (py_max lo a); reflexivity.
Qed.

Lemma constraints_wf key lo hi :
  In (key, (lo, hi)) constraints ->
  py_compare lo hi = Ok (Some Lt) /\
  exists dv, defaults !! key = Some dv /\ settled lo hi dv.
Proof.
  unfold constraints. cbn [In].
  intros H; repeat (destruct H as [[= <- <- <-] | H]); try contradiction;
    (split; [vm_compute; reflexivity |]);
    (eexists; split; [vm_compute; reflexivity |]);
    unfold settled;
    first [ left; vm_compute; reflexivity
          | right; right; split; vm_compute; reflexivity ].
Qed.

Lemma field_value_settled d key lo hi :
  In (key, (lo, hi)) constraints ->
  exists u, field_value d key lo hi = Ok u /\ settled lo hi u.
Proof.
  intros Hin. destruct (constraints_wf _ _ _ Hin) as [Hlt [dv [Hdv Hs]]].
  unfold field_value.
  destruct (d !! key) as [value|].
  - destruct (isinstance_number value) eqn:Hnum.
    + apply clamp_settled; assumption.
    + exists lo. split; [reflexivity | left; reflexivity].
  - exists dv. unfold dict_getitem, py_getitem. rewrite Hdv. auto.
Qed.


Lemma mk_record_coerced s f a o l p t e pl s' o' t' :
  <["octaves" := o']>
    (<["seed" := s']> (<["terrain_type" := t']> (mk_record s f a o l p t e pl)))
  = mk_record s' f a o' l p t' e pl.
Proof. reflexivity. Qed.

Lemma mk_record_dom s f a o l p t e pl :
  dom (mk_record s f a o l p t e pl) = list_to_set schema_keys.
Proof.
  unfold mk_record, py_dict, dict_update. cbn [foldl fst snd].
  rewrite !dom_insert_L, dom_empty_L. cbn. set_solver.
Qed.

Lemma dict_to_int_eq (d : gmap string pyval) key v i :
  d !! key = Some v -> py_int v = Ok i -> dict_to_int d key = Ok (<[key := i]> d).
Proof.
  intros Hd Hi. unfold dict_to_int, dict_getitem, py_getitem.
  rewrite Hd. cbn. rewrite Hi. reflexivity.
Qed.

(** The result of the validator in closed form: the nine settled field
    values, three of them truncated to integers. *)
Lemma validate_parameters_dict (d : gmap string pyval) :
  exists u1 u2 u3 u4 u5 u6 u7 u8 u9 z1 z4 z7,
    validate_parameters (PDict d) =
      Ok (mk_record (PInt z1) u2 u3 (PInt z4) u5 u6 (PInt z7) u8 u9) /\
    (field_value d "seed" (PInt 0) (PInt 10000) = Ok u1 /\
     py_int u1 = Ok (PInt z1) /\ 0 <= z1 <= 10000) /\
    (field_value d "frequency" (flt 1 100) (flt 1 1) = Ok u2 /\
     settled (flt 1 100) (flt 1 1) u2) /\
    (field_value d "amplitude" (flt 5 10) (flt 20 1) = Ok u3 /\
     settled (flt 5 10) (flt 20 1) u3) /\
    (field_value d "octaves" (PInt 1) (PInt 6) = Ok u4 /\
     py_int u4 = Ok (PInt z4) /\ 1 <= z4 <= 6) /\
    (field_value d "lacunarity" (flt 15 10) (flt 3 1) = Ok u5 /\
     settled (flt 15 10) (flt 3 1) u5) /\
    (field_value d "persistence" (flt 1 10) (flt 8 10) = Ok u6 /\
     settled (flt 1 10) (flt 8 10) u6) /\
    (field_value d "terrain_type" (PInt 0) (PInt 5) = Ok u7 /\
     py_int u7 = Ok (PInt z7) /\ 0 <= z7 <= 5) /\
    (field_value d "erosion" (flt 0 1) (flt 1 1) = Ok u8 /\
     settled (flt 0 1) (flt 1 1) u8) /\
    (field_value d "plateau" (flt 0 1) (flt 15 1) = Ok u9 /\
     settled (flt 0 1) (flt 15 1) u9).
Proof.
  destruct (field_value_settled d "seed" (PInt 0) (PInt 10000)) as [u1 [E1 S1]];
    [cbn; tauto|].
  destruct (field_value_settled d "frequency" (flt 1 100) (flt 1 1)) as [u2 [E2 S2]];
    [cbn; tauto|].
  destruct (field_value_settled d "amplitude" (flt 5 10) (flt 20 1)) as [u3 [E3 S3]];
    [cbn; tauto|].
  destruct (field_value_settled d "octaves" (PInt 1) (PInt 6)) as [u4 [E4 S4]];
    [cbn; tauto|].
  destruct (field_value_settled d "lacunarity" (flt 15 10) (flt 3 1)) as [u5 [E5 S5]];
    [cbn; tauto|].
  destruct (field_value_settled d "persistence" (flt 1 10) (flt 8 10)) as [u6 [E6 S6]];
    [cbn; tauto|].
  destruct (field_value_settled d "terrain_type" (PInt 0) (PInt 5)) as [u7 [E7 S7]];
    [cbn; tauto|].
  destruct (field_value_settled d "erosion" (flt 0 1) (flt 1 1)) as [u8 [E8 S8]];
    [cbn; tauto|].
  destruct (field_value_settled d "plateau" (flt 0 1) (flt 15 1)) as [u9 [E9 S9]];
    [cbn; tauto|].
  destruct (py_int_settled 0 10000 ltac:(lia) ltac:(lia) u1 S1) as [z1 [I1 R1]].
  destruct (py_int_settled 1 6 ltac:(lia) ltac:(lia) u4 S4) as [z4 [I4 R4]].
  destruct (py_int_settled 0 5 ltac:(lia) ltac:(lia) u7 S7) as [z7 [I7 R7]].
  exists u1, u2, u3, u4, u5, u6, u7, u8, u9, z1, z4, z7.
  split; [|tauto].
  unfold validate_parameters, constraints. cbn [for_each].
  rewrite validate_entry_eq, E1. cbn [mbind result_bind mret result_ret].
  rewrite validate_entry_eq, E2. cbn [mbind result_bind mret result_ret].
  rewrite validate_entry_eq, E3. cbn [mbind result_bind mret result_ret].
  rewrite validate_entry_eq, E4. cbn [mbind result_bind mret result_ret].
  rewrite validate_entry_eq, E5. cbn [mbind result_bind mret result_ret].
  rewrite validate_entry_eq, E6. cbn [mbind result_bind mret result_ret].
  rewrite validate_entry_eq, E7. cbn [mbind result_bind mret result_ret].
  rewrite validate_entry_eq, E8. cbn [mbind result_bind mret result_ret].
  rewrite validate_entry_eq, E9. cbn [mbind result_bind mret result_ret].
  rewrite (dict_to_int_eq _ "terrain_type" u7 (PInt z7)) by (reflexivity || assumption).
  cbn [mbind result_bind mret result_ret].
  rewrite (dict_to_int_eq _ "seed" u1 (PInt z1)) by (reflexivity || assumption).
  cbn [mbind result_bind mret result_ret].
  rewrite (dict_to_int_eq _ "octaves" u4 (PInt z4)) by (reflexivity || assumption).
  cbn [mbind result_bind mret result_ret].
  f_equal.
Qed.

Lemma py_compare_number_l a b c : py_compare a b = Ok c -> isinstance_number a = true.
Proof. unfold py_compare. destruct a; cbn; try discriminate; reflexivity. Qed.

Lemma settled_number lo hi v :
  py_compare lo hi = Ok (Some Lt) -> settled lo hi v -> isinstance_number v = true.
Proof.
  intros Hlt [-> | [-> | [H _]]].
  - eapply py_compare_number_l, Hlt.
  - apply py_compare_flip in Hlt. eapply py_compare_number_l, Hlt.
  - eapply py_compare_number_l, H.
Qed.

Lemma int_in_range (zlo zhi z : Z) :
  zlo <= z <= zhi -> in_range (PInt zlo) (PInt zhi) (PInt z) = true.
Proof.
  intros Hz. unfold in_range, num_le, py_compare. cbn [xreal_of].
  rewrite !xcompare_int.
  destruct (Z.compare_spec zlo z), (Z.compare_spec z zhi); try reflexivity; lia.
Qed.

(** A settled value is a fixed point of the loop body. *)
Lemma field_value_fixed (r : gmap string pyval) key lo hi v :
  py_compare lo hi = Ok (Some Lt) ->
  r !! key = Some v -> settled lo hi v -> field_value r key lo hi = Ok v.
Proof.
  intros Hlt Hr Hs. unfold field_value. rewrite Hr.
  rewrite (settled_number _ _ _ Hlt Hs). apply settled_clamp; assumption.
Qed.

(** ** Properties of the validator *)

(** C2. Total validation: on every mapping the validator returns
    normally, and the record it returns has each of the nine fields of
    the schema, with a value inside the closed range of the field; the
    values of [seed], [octaves] and [terrain_type] are integers. *)
Theorem validate_parameters_total (d : gmap string pyval) :
  exists r,
    validate_parameters (PDict d) = Ok r /\
    Forall (fun c => exists v, r !! c.1 = Some v /\ in_range c.2.1 c.2.2 v = true)
      constraints /\
    exists z1 z4 z7,
      r !! "seed" = Some (PInt z1) /\ r !! "octaves" = Some (PInt z4) /\
      r !! "terrain_type" = Some (PInt z7).
Proof.
  destruct (validate_parameters_dict d)
    as (u1 & u2 & u3 & u4 & u5 & u6 & u7 & u8 & u9 & z1 & z4 & z7 & Hr &
        (_ & _ & R1) & (_ & S2) & (_ & S3) & (_ & _ & R4) & (_ & S5) &
        (_ & S6) & (_ & _ & R7) & (_ & S8) & (_ & S9)).
  eexists. split; [exact Hr|]. split.
  - unfold constraints.
    repeat (apply Forall_cons; split);
      try apply Forall_nil; cbn [fst snd]; eexists; (split; [reflexivity|]);
      first [ apply int_in_range; assumption
            | apply settled_in_range; [vm_compute; reflexivity | assumption] ].
  - exists z1, z4, z7. repeat split; reflexivity.
Qed.

(** C10. The record returned by the validator has exactly the nine keys
    of the schema: a key of the input mapping outside the schema does
    not appear in it. *)
Theorem validate_parameters_keys (d : gmap string pyval) :
  exists r,
    validate_parameters (PDict d) = Ok r /\
    dom r = {[ "seed"; "frequency"; "amplitude"; "octaves"; "lacunarity";
               "persistence"; "terrain_type"; "erosion"; "plateau" ]} /\
    forall k, k ∉ schema_keys -> r !! k = None.
Proof.
  destruct (validate_parameters_dict d)
    as (u1 & u2 & u3 & u4 & u5 & u6 & u7 & u8 & u9 & z1 & z4 & z7 & Hr & _).
  eexists. split; [exact Hr|].
  rewrite mk_record_dom. split.
  - cbn. set_solver.
  - intros k Hk. apply not_elem_of_dom. rewrite mk_record_dom.
    rewrite elem_of_list_to_set. exact Hk.
Qed.

Lemma validate_parameters_keys_witness :
  exists r,
    validate_parameters (PDict {[ "colour" := PStr "green"; "seed" := PInt 7 ]}) = Ok r /\
    r !! "colour" = None.
Proof.
  destruct (validate_parameters_keys {[ "colour" := PStr "green"; "seed" := PInt 7 ]})
    as (r & Hr & _ & Hdrop).
  exists r. split; [exact Hr|].
  apply Hdrop. apply (bool_decide_unpack _). vm_compute. exact I.
Defined.

(** C4. Substitution policy.  A field present with a value that is not
    a number is replaced by the lower bound of the field; an absent
    field is replaced by its default; and the mapping
    [{amplitude: 999, octaves: 'bad', terrain_type: 2}] validates to
    amplitude 20.0, octaves 1, terrain_type 2 and the defaults
    elsewhere. *)
Theorem validate_parameters_substitution :
  (forall (d : gmap string pyval) key lo hi value,
      In (key, (lo, hi)) constraints ->
      d !! key = Some value -> isinstance_number value = false ->
      exists r, validate_parameters (PDict d) = Ok r /\ r !! key = Some lo) /\
  (forall (d : gmap string pyval) key lo hi,
      In (key, (lo, hi)) constraints ->
      d !! key = None ->
      exists r dv, validate_parameters (PDict d) = Ok r /\
                   defaults !! key = Some dv /\ r !! key = Some dv) /\
  validate_parameters
    (PDict (py_dict [("amplitude", PInt 999); ("octaves", PStr "bad");
                     ("terrain_type", PInt 2)])) =
  Ok (mk_record (PInt 42) (flt 1 10) (flt 20 1) (PInt 1) (flt 2 1) (flt 5 10)
        (PInt 2) (flt 0 1) (flt 0 1)).
Proof.
  split; [|split].
  - intros d key lo hi value Hin Hd Hnum.
    destruct (validate_parameters_dict d)
      as (u1 & u2 & u3 & u4 & u5 & u6 & u7 & u8 & u9 & z1 & z4 & z7 & Hr &
          (E1 & I1 & _) & (E2 & _) & (E3 & _) & (E4 & I4 & _) & (E5 & _) &
          (E6 & _) & (E7 & I7 & _) & (E8 & _) & (E9 & _)).
    eexists. split; [exact Hr|].
    unfold field_value in *. unfold constraints in Hin. cbn [In] in Hin.
    repeat (destruct Hin as [[= <- <- <-] | Hin]); try contradiction;
      rewrite Hd, Hnum in *; simplify_eq; cbn [py_int] in *; simplify_eq;
      reflexivity.
  - intros d key lo hi Hin Hd.
    destruct (constraints_wf _ _ _ Hin) as [_ [dv [Hdv _]]].
    destruct (validate_parameters_dict d)
      as (u1 & u2 & u3 & u4 & u5 & u6 & u7 & u8 & u9 & z1 & z4 & z7 & Hr &
          (E1 & I1 & _) & (E2 & _) & (E3 & _) & (E4 & I4 & _) & (E5 & _) &
          (E6 & _) & (E7 & I7 & _) & (E8 & _) & (E9 & _)).
    eexists. exists dv. split; [exact Hr|]. split; [exact Hdv|].
    unfold field_value, dict_getitem, py_getitem in *.
    unfold constraints in Hin. cbn [In] in Hin.
    repeat (destruct Hin as [[= <- <- <-] | Hin]); try contradiction;
      rewrite Hd, Hdv in *; simplify_eq; vm_compute in Hdv; simplify_eq;
      cbn [py_int] in *; simplify_eq; reflexivity.
  - reflexivity.
Qed.

Lemma validate_parameters_substitution_witness :
  (exists r, validate_parameters (PDict {[ "octaves" := PStr "bad" ]}) = Ok r /\
             r !! "octaves" = Some (PInt 1)) /\
  (exists r dv, validate_parameters (PDict ∅) = Ok r /\
                defaults !! "terrain_type" = Some dv /\
                r !! "terrain_type" = Some dv).
Proof.
  split.
  - apply (proj1 validate_parameters_substitution
             {[ "octaves" := PStr "bad" ]} "octaves" (PInt 1) (PInt 6) (PStr "bad")).
    + unfold constraints. cbn. tauto.
    + reflexivity.
    + reflexivity.
  - apply (proj1 (proj2 validate_parameters_substitution)
             ∅ "terrain_type" (PInt 0) (PInt 5)).
    + unfold constraints. cbn. tauto.
    + reflexivity.
Defined.

(** C5. Validation is idempotent: the record the validator returns,
    read again as a mapping, validates to itself. *)
Theorem validate_parameters_idempotent (d : gmap string pyval) :
  exists r,
    validate_parameters (PDict d) = Ok r /\
    validate_parameters (PDict r) = Ok r.
Proof.
  destruct (validate_parameters_dict d)
    as (u1 & u2 & u3 & u4 & u5 & u6 & u7 & u8 & u9 & z1 & z4 & z7 & Hr &
        (_ & _ & R1) & (_ & S2) & (_ & S3) & (_ & _ & R4) & (_ & S5) &
        (_ & S6) & (_ & _ & R7) & (_ & S8) & (_ & S9)).
  eexists. split; [exact Hr|].
  set (r := mk_record (PInt z1) u2 u3 (PInt z4) u5 u6 (PInt z7) u8 u9).
  destruct (validate_parameters_dict r)
    as (v1 & v2 & v3 & v4 & v5 & v6 & v7 & v8 & v9 & y1 & y4 & y7 & Hr' &
        (E1 & I1 & _) & (E2 & _) & (E3 & _) & (E4 & I4 & _) & (E5 & _) &
        (E6 & _) & (E7 & I7 & _) & (E8 & _) & (E9 & _)).
  rewrite Hr'.
  rewrite (field_value_fixed r "seed" _ _ (PInt z1)) in E1
    by first [reflexivity | apply int_in_range_settled; lia].
  rewrite (field_value_fixed r "octaves" _ _ (PInt z4)) in E4
    by first [reflexivity | apply int_in_range_settled; lia].
  rewrite (field_value_fixed r "terrain_type" _ _ (PInt z7)) in E7
    by first [reflexivity | apply int_in_range_settled; lia].
  rewrite (field_value_fixed r "frequency" _ _ u2) in E2
    by first [assumption | reflexivity].
  rewrite (field_value_fixed r "amplitude" _ _ u3) in E3
    by first [assumption | reflexivity].
  rewrite (field_value_fixed r "lacunarity" _ _ u5) in E5
    by first [assumption | reflexivity].
  rewrite (field_value_fixed r "persistence" _ _ u6) in E6
    by first [assumption | reflexivity].
  rewrite (field_value_fixed r "erosion" _ _ u8) in E8
    by first [assumption | reflexivity].
  rewrite (field_value_fixed r "plateau" _ _ u9) in E9
    by first [assumption | reflexivity].
  simplify_eq. cbn [py_int] in *. simplify_eq. reflexivity.
Qed.

(** ** Properties of the heuristic analyzer *)

Ltac case_keywords :=
  repeat match goal with
         | |- context [if any_in ?words ?text then _ else _] =>
             destruct (any_in words text)
         end.

(** The heuristic analyzer always returns, and its record is the one
    of the field functions above. *)
Lemma fallback_analysis_closed_form (entropy : list Byte.byte) (text : string) :
  fallback_analysis entropy text =
  Ok (mk_record
        (PInt (int_from_bytes_big entropy mod 10000))
        (PFloat (heuristic_frequency (lower text)))
        (PFloat (heuristic_amplitude (lower text)))
        (PInt (heuristic_octaves (lower text)))
        (PFloat (heuristic_lacunarity (lower text)))
        (PFloat (heuristic_persistence (lower text)))
        (PInt (heuristic_terrain_type (lower text)))
        (PFloat (heuristic_erosion (lower text)))
        (PFloat (heuristic_plateau (lower text)))).
Proof.
  unfold fallback_analysis, heuristic_frequency, heuristic_amplitude,
    heuristic_scale, heuristic_octaves, heuristic_lacunarity,
    heuristic_persistence, heuristic_terrain_type, heuristic_erosion,
    heuristic_plateau, mountain_words, hill_words, valley_words, flat_words,
    plateau_words, large_words, small_words, rough_words, smooth_words,
    water_words.
  cbv zeta.
  generalize (lower text) as text_lower. intros text_lower.
  generalize (int_from_bytes_big entropy mod 10000) as seed. intros seed.
  case_keywords; reflexivity.
Qed.

Lemma heuristic_frequency_in_range (t : string) :
  in_range (flt 1 100) (flt 1 1) (PFloat (heuristic_frequency t)) = true.
Proof.
  unfold heuristic_frequency, heuristic_scale.
  case_keywords; vm_compute; reflexivity.
Qed.

(** The amplitude leaves the range in one case only: a mountain word
    together with a size-up word, where it is 22.5. *)
Lemma heuristic_amplitude_in_range (t : string) :
  in_range (flt 5 10) (flt 20 1) (PFloat (heuristic_amplitude t)) = true \/
  (heuristic_amplitude t = dec 225 10 /\
   any_in mountain_words t = true /\ any_in large_words t = true).
Proof.
  unfold heuristic_amplitude, heuristic_scale.
  destruct (any_in mountain_words t), (any_in large_words t);
    [ right; repeat split; vm_compute; reflexivity | | | ];
    left; case_keywords; vm_compute; reflexivity.
Qed.

Lemma heuristic_other_fields_in_range (t : string) :
  in_range (PInt 1) (PInt 6) (PInt (heuristic_octaves t)) = true /\
  in_range (flt 15 10) (flt 3 1) (PFloat (heuristic_lacunarity t)) = true /\
  in_range (flt 1 10) (flt 8 10) (PFloat (heuristic_persistence t)) = true /\
  in_range (PInt 0) (PInt 5) (PInt (heuristic_terrain_type t)) = true /\
  in_range (flt 0 1) (flt 1 1) (PFloat (heuristic_erosion t)) = true /\
  in_range (flt 0 1) (flt 15 1) (PFloat (heuristic_plateau t)) = true.
Proof.
  unfold heuristic_octaves, heuristic_lacunarity, heuristic_persistence,
    heuristic_terrain_type, heuristic_erosion, heuristic_plateau.
  repeat split; case_keywords; vm_compute; reflexivity.
Qed.

(** What the heuristic analyzer does guarantee: every field other than
    the amplitude is inside its range, and so is the amplitude unless
    the text has both a mountain word and a size-up word. *)
Lemma fallback_analysis_ranges (entropy : list Byte.byte) (text : string) :
  exists r a,
    fallback_analysis entropy text = Ok r /\
    Forall (fun c =>
              c.1 = "amplitude"%string \/
              exists v, r !! c.1 = Some v /\ in_range c.2.1 c.2.2 v = true)
      constraints /\
    r !! "amplitude" = Some (PFloat a) /\
    (in_range (flt 5 10) (flt 20 1) (PFloat a) = true \/
     (a = dec 225 10 /\
      any_in mountain_words (lower text) = true /\
      any_in large_words (lower text) = true)).
Proof.
  pose proof (Z.mod_pos_bound (int_from_bytes_big entropy) 10000 ltac:(lia)) as Hseed.
  destruct (heuristic_other_fields_in_range (lower text))
    as (Ho & Hl & Hp & Ht & He & Hpl).
  eexists. eexists. split; [apply fallback_analysis_closed_form|].
  split; [|split; [reflexivity | apply heuristic_amplitude_in_range]].
  unfold constraints.
  repeat (apply Forall_cons; split); try apply Forall_nil; cbn [fst snd];
    first [ exact I
          | left; reflexivity
          | right; eexists; split; [reflexivity|] ].
  - apply int_in_range. lia.
  - apply heuristic_frequency_in_range.
  - exact Ho.
  - exact Hl.
  - exact Hp.
  - exact Ht.
  - exact He.
  - exact Hpl.
Qed.

(** C9. Determinism up to the seed: for a fixed text, two runs of the
    heuristic analyzer, whatever bytes the random source yields in
    each, both return, and their records agree on every field other
    than [seed]. *)
Theorem fallback_analysis_deterministic_modulo_seed
    (entropy1 entropy2 : list Byte.byte) (text : string) :
  exists r1 r2,
    fallback_analysis entropy1 text = Ok r1 /\
    fallback_analysis entropy2 text = Ok r2 /\
    delete "seed" r1 = delete "seed" r2.
Proof.
  rewrite !fallback_analysis_closed_form.
  eexists. eexists. split; [reflexivity|]. split; reflexivity.
Qed.

(** C6. The two scenarios of the heuristic analyzer.  On
    ["I want rolling hills"] it returns terrain_type 1, amplitude 8.0,
    frequency 0.1, the other fields at their defaults and a seed in
    range; on ["Make some mountains with rivers"] it returns
    terrain_type 2, amplitude 15.0, frequency 0.05 and erosion 0.3. *)
Theorem fallback_analysis_scenarios (entropy : list Byte.byte) :
  let seed := int_from_bytes_big entropy mod 10000 in
  0 <= seed <= 10000 /\
  fallback_analysis entropy "I want rolling hills" =
    Ok (mk_record (PInt seed) (flt 1 10) (flt 8 1) (PInt 3) (flt 2 1)
          (flt 5 10) (PInt 1) (flt 0 1) (flt 0 1)) /\
  fallback_analysis entropy "Make some mountains with rivers" =
    Ok (mk_record (PInt seed) (flt 5 100) (flt 15 1) (PInt 3) (flt 2 1)
          (flt 5 10) (PInt 2) (flt 3 10) (flt 0 1)).
Proof.
  intros seed. split.
  - pose proof (Z.mod_pos_bound (int_from_bytes_big entropy) 10000 ltac:(lia)).
    unfold seed. lia.
  - unfold fallback_analysis. fold seed. generalize seed as s. intros s.
    split; reflexivity.
Qed.

(** C1 fails on the code.  The scale layer multiplies the amplitude of
    the terrain-type layer: on ["large mountains"] the heuristic
    analyzer returns amplitude 15.0 * 1.5 = 22.5, above the bound 20.0
    of the schema, and the orchestrator hands that record out as it
    is. *)
Theorem fallback_analysis_amplitude_out_of_range (entropy : list Byte.byte) :
  let self := {| openai_client := None;
                 whisper_model := Some (fun _ => Ok "large mountains"%string) |} in
  let w := {| path_exists := fun _ => true;
              path_stem := fun p => p;
              json_loads := fun _ => Raise JSONDecodeError;
              urandom4 := entropy |} in
  exists r result,
    fallback_analysis entropy "large mountains" = Ok r /\
    r !! "amplitude" = Some (flt 225 10) /\
    in_range (flt 5 10) (flt 20 1) (flt 225 10) = false /\
    (process_voice_command self w "request.wav").2 = Ok result /\
    result !! "parameters" = Some (PDict r).
Proof.
  intros self w.
  unfold process_voice_command, analyze_terrain_request, fallback_analysis.
  cbn [path_exists negb transcribe_audio whisper_model openai_client urandom4 self w].
  generalize (int_from_bytes_big entropy mod 10000) as seed. intros seed.
  eexists. eexists.
  split; [reflexivity|]. split; [reflexivity|]. split; [reflexivity|].
  split; reflexivity.
Qed.

(** ** Properties of the remote-backed analyzer *)

(** The failures of the remote path that the code does recover from:
    no client, a call that raises, a response that [json.loads]
    rejects, and a response that parses to [null], a boolean or a
    number.  In each, the analysis is the heuristic one. *)
Lemma analyze_terrain_request_recovers self w text :
  openai_client self = None \/
  (exists client, openai_client self = Some client /\
     ((exists e, client text = Raise e) \/
      (exists response_text, client text = Ok response_text /\
         ((exists e, json_loads w response_text = Raise e) \/
          (exists v, json_loads w response_text = Ok v /\
                     match v with
                     | PNone | PBool _ | PInt _ | PFloat _ => True
                     | _ => False
                     end))))) ->
  analyze_terrain_request self w text = fallback_analysis (urandom4 w) text.
Proof.
  unfold analyze_terrain_request.
  intros [Hc | (client & Hc & [[e He] | (resp & Hresp & [[e He] | (v & Hv & Hscalar)])])];
    rewrite Hc; [reflexivity | | |].
  - rewrite He. destruct e; reflexivity.
  - rewrite Hresp. cbn. rewrite He. destruct e; reflexivity.
  - rewrite Hresp. cbn. rewrite Hv.
    destruct v; try contradiction; reflexivity.
Qed.

(** C3 fails on the code.  A response that parses to a JSON array is
    not an object, yet the membership tests of the validator succeed on
    a list: the analyzer returns the record of defaults instead of the
    heuristic analysis of the text. *)
Theorem analyze_terrain_request_json_array (entropy : list Byte.byte) :
  let self := {| openai_client := Some (fun _ => Ok "[]"%string);
                 whisper_model := None |} in
  let w := {| path_exists := fun _ => true;
              path_stem := fun p => p;
              json_loads := fun s => if String.eqb s "[]" then Ok (PList [])
                                     else Raise JSONDecodeError;
              urandom4 := entropy |} in
  analyze_terrain_request self w "mountains" =
    Ok (mk_record (PInt 42) (flt 1 10) (flt 5 1) (PInt 3) (flt 2 1) (flt 5 10)
          (PInt 1) (flt 0 1) (flt 0 1)) /\
  fallback_analysis (urandom4 w) "mountains" =
    Ok (mk_record (PInt (int_from_bytes_big entropy mod 10000)) (flt 5 100)
          (flt 15 1) (PInt 3) (flt 2 1) (flt 5 10) (PInt 2) (flt 0 1) (flt 0 1)) /\
  analyze_terrain_request self w "mountains" <> fallback_analysis (urandom4 w) "mountains".
Proof.
  intros self w.
  assert (Ha : analyze_terrain_request self w "mountains" =
               Ok (mk_record (PInt 42) (flt 1 10) (flt 5 1) (PInt 3) (flt 2 1)
                     (flt 5 10) (PInt 1) (flt 0 1) (flt 0 1))) by reflexivity.
  assert (Hf : fallback_analysis (urandom4 w) "mountains" =
               Ok (mk_record (PInt (int_from_bytes_big entropy mod 10000))
                     (flt 5 100) (flt 15 1) (PInt 3) (flt 2 1) (flt 5 10)
                     (PInt 2) (flt 0 1) (flt 0 1))).
  { unfold fallback_analysis. cbn [urandom4 w].
    generalize (int_from_bytes_big entropy mod 10000) as seed. intros seed.
    reflexivity. }
  split; [exact Ha|]. split; [exact Hf|].
  rewrite Ha, Hf. intros H.
  apply (f_equal (fun x => match x with
                           | Ok r => r !! "terrain_type"
                           | Raise _ => None
                           end)) in H.
  discriminate H.
Qed.

(** ** Properties of the transcription fallback and the orchestrator *)

Lemma first_phrase_spec (table : list (string * string)) (filename : string) :
  match first_phrase table filename with
  | Some phrase =>
      exists before keyword after,
        table = before ++ (keyword, phrase) :: after /\
        Forall (fun kp => contains kp.1 filename = false) before /\
        contains keyword filename = true
  | None => Forall (fun kp => contains kp.1 filename = false) table
  end.
Proof.
  induction table as [|[keyword phrase] rest IH]; cbn.
  - constructor.
  - destruct (contains keyword filename) eqn:Hk.
    + exists [], keyword, rest. repeat split; [constructor | assumption].
    + destruct (first_phrase rest filename) as [p|].
      * destruct IH as (before & k & after & -> & Hb & Hc).
        exists ((keyword, phrase) :: before), k, after.
        repeat split; [constructor; assumption | assumption].
      * constructor; assumption.
Qed.

Lemma fallback_transcription_nonempty (w : World) (path : string) :
  fallback_transcription w path <> ""%string.
Proof.
  unfold fallback_transcription, fallback_phrases. cbn [first_phrase].
  repeat match goal with
         | |- context [if contains ?k ?f then _ else _] => destruct (contains k f)
         end; discriminate.
Qed.

Lemma Ok_inj {A : Type} (a b : A) : Ok a = Ok b -> a = b.
Proof. congruence. Qed.

Lemma result_record_not_error (a b c d s : pyval) :
  py_dict [("text", a); ("parameters", b); ("keywords", c); ("success", d)]
  <> ({[ "error" := s ]} : gmap string pyval).
Proof.
  intros H.
  apply (f_equal (fun r : gmap string pyval => r !! "success")) in H.
  discriminate H.
Qed.

(** C7. Short circuit on a missing file: when nothing exists at the
    path, the orchestrator returns the record whose only key is
    [error], with the message ["Audio file not found: "] followed by
    the path, and enters no stage. *)
Theorem process_voice_command_missing_file
    (self : VoiceTerrainProcessor) (w : World) (audio_file_path : string) :
  path_exists w audio_file_path = false ->
  process_voice_command self w audio_file_path =
    ([], Ok {[ "error" := PStr ("Audio file not found: " +:+ audio_file_path) ]}).
Proof.
  intros Hmissing. unfold process_voice_command. rewrite Hmissing. reflexivity.
Qed.

Lemma process_voice_command_missing_file_witness :
  let self := {| openai_client := None; whisper_model := None |} in
  let w := {| path_exists := fun _ => false;
              path_stem := fun p => p;
              json_loads := fun _ => Raise JSONDecodeError;
              urandom4 := [] |} in
  process_voice_command self w "/nonexistent/path.wav" =
    ([], Ok {[ "error" := PStr "Audio file not found: /nonexistent/path.wav" ]}).
Proof.
  intros self w.
  apply (process_voice_command_missing_file self w "/nonexistent/path.wav").
  reflexivity.
Defined.

(** C8. Without a speech model the transcription is never empty: it is
    the phrase of the first keyword of the table found in the
    lower-cased file stem, or the default phrase when no keyword is
    found; the orchestrator therefore does not return the record
    [{error: 'Failed to transcribe audio'}]. *)
Theorem transcribe_audio_without_model
    (self : VoiceTerrainProcessor) (w : World) (audio_file_path : string) :
  whisper_model self = None ->
  let filename := lower (path_stem w audio_file_path) in
  let text := transcribe_audio self w audio_file_path in
  text <> ""%string /\
  ((exists before keyword after,
       fallback_phrases = before ++ (keyword, text) :: after /\
       Forall (fun kp => contains kp.1 filename = false) before /\
       contains keyword filename = true) \/
   (Forall (fun kp => contains kp.1 filename = false) fallback_phrases /\
    text = default_phrase)) /\
  (process_voice_command self w audio_file_path).2 <>
    Ok {[ "error" := PStr "Failed to transcribe audio" ]}.
Proof.
  intros Hnone filename text.
  assert (Htext : text = fallback_transcription w audio_file_path).
  { unfold text, transcribe_audio. rewrite Hnone. reflexivity. }
  assert (Hne : text <> ""%string).
  { rewrite Htext. apply fallback_transcription_nonempty. }
  split; [exact Hne|]. split.
  - rewrite Htext. unfold fallback_transcription. fold filename.
    pose proof (first_phrase_spec fallback_phrases filename) as Hspec.
    destruct (first_phrase fallback_phrases filename) as [phrase|].
    + left. exact Hspec.
    + right. split; [exact Hspec | reflexivity].
  - unfold process_voice_command.
    destruct (path_exists w audio_file_path); cbn [negb].
    + fold text. apply String.eqb_neq in Hne. rewrite Hne.
      destruct (analyze_terrain_request self w text); cbn [snd].
      * intros H%Ok_inj. eapply result_record_not_error, H.
      * discriminate.
    + cbn [snd]. intros H%Ok_inj.
      apply (f_equal (fun r : gmap string pyval => r !! "error")) in H.
      rewrite !lookup_singleton_eq in H. discriminate H.
Qed.

Lemma transcribe_audio_without_model_witness :
  let self := {| openai_client := None; whisper_model := None |} in
  let w := {| path_exists := fun _ => true;
              path_stem := fun _ => "mountain_test"%string;
              json_loads := fun _ => Raise JSONDecodeError;
              urandom4 := [] |} in
  transcribe_audio self w "mountain_test.wav" <> ""%string /\
  (process_voice_command self w "mountain_test.wav").2 <>
    Ok {[ "error" := PStr "Failed to transcribe audio" ]}.
Proof.
  intros self w.
  destruct (transcribe_audio_without_model self w "mountain_test.wav" eq_refl)
    as (Hne & _ & Hreach).
  split; [exact Hne | exact Hreach].
Defined.

(** * Further properties *)

(** ** Order facts on numbers *)

Lemma fin_compare_rescale (m1 e1 m2 e2 e0 : Z) :
  e0 <= e1 -> e0 <= e2 ->
  (m1 * 2 ^ (e1 - Z.min e1 e2) ?= m2 * 2 ^ (e2 - Z.min e1 e2)) =
  (m1 * 2 ^ (e1 - e0) ?= m2 * 2 ^ (e2 - e0)).
Proof.
  intros H1 H2.
  set (k := Z.min e1 e2 - e0).
  assert (Hk : 0 <= k) by (unfold k; lia).
  replace (e1 - e0) with ((e1 - Z.min e1 e2) + k) by (unfold k; lia).
  replace (e2 - e0) with ((e2 - Z.min e1 e2) + k) by (unfold k; lia).
  rewrite !Z.pow_add_r by lia. rewrite !Z.mul_assoc.
  assert (Hp : 0 < 2 ^ k) by (apply Z.pow_pos_nonneg; lia).
  generalize dependent (2 ^ k). intros p Hp.
  generalize (m1 * 2 ^ (e1 - Z.min e1 e2)) (m2 * 2 ^ (e2 - Z.min e1 e2)).
  intros A B.
  destruct (Z.compare_spec A B), (Z.compare_spec (A * p) (B * p));
    try reflexivity; nia.
Qed.

Lemma xcompare_le_lt_trans (x y z : xreal) (c : comparison) :
  xcompare x y = Some c -> c <> Gt -> xcompare y z = Some Lt ->
  xcompare x z = Some Lt.
Proof.
  destruct x as [|sx|m1 e1], y as [|sy|m2 e2], z as [|sz|m3 e3]; cbn;
    intros Hxy Hc Hyz; try discriminate;
    repeat match goal with
           | s : bool |- _ => destruct s
           end; try discriminate; try reflexivity;
    try (injection Hxy as <-; congruence).
  set (e0 := Z.min e1 (Z.min e2 e3)).
  rewrite (fin_compare_rescale m1 e1 m2 e2 e0) in Hxy by (unfold e0; lia).
  rewrite (fin_compare_rescale m2 e2 m3 e3 e0) in Hyz by (unfold e0; lia).
  rewrite (fin_compare_rescale m1 e1 m3 e3 e0) by (unfold e0; lia).
  injection Hxy as Hxy. injection Hyz as Hyz. f_equal.
  apply -> Z.compare_lt_iff in Hyz. apply Z.compare_lt_iff.
  destruct (Z.compare_spec (m1 * 2 ^ (e1 - e0)) (m2 * 2 ^ (e2 - e0)));
    subst c; try congruence; lia.
Qed.

Lemma py_compare_le_lt_trans (a b c : pyval) (o : comparison) :
  py_compare a b = Ok (Some o) -> o <> Gt -> py_compare b c = Ok (Some Lt) ->
  py_compare a c = Ok (Some Lt).
Proof.
  unfold py_compare.
  destruct (xreal_of a) as [x|], (xreal_of b) as [y|], (xreal_of c) as [z|];
    try discriminate.
  intros [= Hab] Ho [= Hbc]. f_equal. eapply xcompare_le_lt_trans; eauto.
Qed.

(** ** The validator field by field *)

Lemma validate_parameters_field (d : gmap string pyval) key lo hi :
  In (key, (lo, hi)) constraints ->
  exists r u,
    validate_parameters (PDict d) = Ok r /\
    field_value d key lo hi = Ok u /\
    if int_key key
    then exists z, py_int u = Ok (PInt z) /\ r !! key = Some (PInt z)
    else r !! key = Some u.
Proof.
  intros Hin.
  destruct (validate_parameters_dict d)
    as (u1 & u2 & u3 & u4 & u5 & u6 & u7 & u8 & u9 & z1 & z4 & z7 & Hr &
        (E1 & I1 & _) & (E2 & _) & (E3 & _) & (E4 & I4 & _) & (E5 & _) &
        (E6 & _) & (E7 & I7 & _) & (E8 & _) & (E9 & _)).
  unfold constraints in Hin. cbn [In] in Hin.
  repeat (destruct Hin as [[= <- <- <-] | Hin]); try contradiction;
    eexists; eexists; (split; [exact Hr|]); (split; [eassumption|]);
    vm_compute int_key; first [reflexivity | eexists; split; [eassumption | reflexivity]].
Qed.

Lemma int_key_bounds key lo hi :
  In (key, (lo, hi)) constraints -> int_key key = true ->
  exists zlo zhi, lo = PInt zlo /\ hi = PInt zhi /\ 0 <= zlo <= zhi.
Proof.
  unfold constraints. cbn [In].
  intros Hin; repeat (destruct Hin as [[= <- <- <-] | Hin]); try contradiction;
    vm_compute int_key; intros Hk; try discriminate;
    eexists; eexists; repeat split; lia.
Qed.

Lemma float_key_py_int_free key lo hi :
  In (key, (lo, hi)) constraints -> py_int lo = Ok lo /\ py_int hi = Ok hi \/ int_key key = false.
Proof.
  unfold constraints. cbn [In].
  intros Hin; repeat (destruct Hin as [[= <- <- <-] | Hin]); try contradiction;
    vm_compute int_key; auto.
Qed.

Section ClampCases.

Variables lo hi : pyval.
Hypothesis lo_lt_hi : py_compare lo hi = Ok (Some Lt).

Lemma clamp_high (v : pyval) :
  isinstance_number v = true ->
  py_compare v hi <> Ok (Some Lt) ->
  clamp lo hi v = Ok hi.
Proof.
  intros Hv Hnot.
  pose proof (py_compare_flip _ _ _ lo_lt_hi) as Hflip. cbn in Hflip.
  unfold clamp, py_min, py_max, py_lt, py_gt.
  assert (exists c, py_compare v hi = Ok c) as [c Hc].
  { unfold py_compare in *. destruct (xreal_of hi); [|destruct (xreal_of lo); discriminate].
    destruct v; try discriminate; cbn; eauto. }
  rewrite Hc in *. cbn.
  destruct c as [[]|]; cbn; rewrite ?Hflip; cbn; try reflexivity.
  congruence.
Qed.

Lemma clamp_low (v : pyval) (o : comparison) :
  py_compare v lo = Ok (Some o) -> o <> Gt ->
  clamp lo hi v = Ok lo.
Proof.
  intros Hlo Ho.
  pose proof (py_compare_le_lt_trans _ _ _ _ Hlo Ho lo_lt_hi) as Hhi.
  unfold clamp, py_min, py_max, py_lt, py_gt.
  rewrite Hhi. cbn. rewrite Hlo. cbn. destruct o; try reflexivity; congruence.
Qed.

Lemma clamp_inside (v : pyval) :
  py_compare v hi = Ok (Some Lt) -> py_compare v lo = Ok (Some Gt) ->
  clamp lo hi v = Ok v.
Proof.
  intros H1 H2. unfold clamp, py_min, py_max, py_lt, py_gt.
  rewrite H1. cbn. rewrite H2. reflexivity.
Qed.

End ClampCases.

Lemma py_int_floor (zlo zhi : Z) (v : pyval) :
  0 <= zlo ->
  py_compare v (PInt zhi) = Ok (Some Lt) ->
  py_compare v (PInt zlo) = Ok (Some Gt) ->
  exists z, py_int v = Ok (PInt z) /\
            num_le (PInt z) v = true /\
            py_compare v (PInt (z + 1)) = Ok (Some Lt).
Proof.
  intros Hlo Hhi Hgt.
  destruct v as [|b|z|f| | |]; try discriminate.
  - exists (Z.b2z b). split; [reflexivity|].
    unfold num_le, py_compare. cbn [xreal_of]. rewrite !xcompare_int.
    rewrite Z.compare_refl. split; [reflexivity|].
    do 2 f_equal. apply Z.compare_lt_iff. lia.
  - exists z. split; [reflexivity|].
    unfold num_le, py_compare. cbn [xreal_of]. rewrite !xcompare_int.
    rewrite Z.compare_refl. split; [reflexivity|].
    do 2 f_equal. apply Z.compare_lt_iff. lia.
  - destruct f as [s|s| |s m e].
    + unfold py_compare in Hgt. cbn [xreal_of xreal_of_float] in Hgt.
      rewrite xcompare_int in Hgt.
      assert (0 > zlo) by (unfold Z.gt; congruence). lia.
    + destruct s; discriminate.
    + discriminate.
    + assert (Hs : s = false).
      { destruct s; [|reflexivity]. exfalso.
        unfold py_compare in Hgt. cbn [xreal_of xreal_of_float cond_Zopp] in Hgt.
        injection Hgt as Hgt. cbn in Hgt. apply -> Z.compare_gt_iff in Hgt.
        assert (0 < 2 ^ (e - Z.min e 0)) by (apply Z.pow_pos_nonneg; lia).
        assert (0 < 2 ^ (0 - Z.min e 0)) by (apply Z.pow_pos_nonneg; lia).
        nia. }
      subst s. eexists. split; [reflexivity|]. cbn [cond_Zopp].
      unfold num_le, py_compare. cbn [xreal_of xreal_of_float cond_Zopp].
      unfold xcompare.
      destruct (Z.le_gt_cases 0 e) as [He | He].
      * rewrite (Z.min_r e 0), (Z.min_l 0 e) by lia.
        rewrite Z.shiftl_mul_pow2 by lia.
        replace (e - 0) with e by lia. replace (0 - 0) with 0 by lia.
        rewrite ?Z.pow_0_r, ?Z.mul_1_r.
        rewrite Z.compare_refl. split; [reflexivity|].
        do 2 f_equal. apply Z.compare_lt_iff. lia.
      * rewrite (Z.min_l e 0), (Z.min_r 0 e) by lia.
        rewrite Z.shiftl_div_pow2 by lia.
        replace (e - e) with 0 by lia. replace (0 - e) with (- e) by lia.
        rewrite ?Z.pow_0_r, ?Z.mul_1_r.
        assert (Hp : 0 < 2 ^ (- e)) by (apply Z.pow_pos_nonneg; lia).
        pose proof (Z.mul_div_le (Z.pos m) (2 ^ (- e)) Hp).
        pose proof (Z.mul_succ_div_gt (Z.pos m) (2 ^ (- e)) Hp).
        split.
        -- destruct (Z.compare_spec (Z.pos m / 2 ^ (- e) * 2 ^ (- e)) (Z.pos m));
             try reflexivity; lia.
        -- do 2 f_equal. apply Z.compare_lt_iff. lia.
Qed.

(** ** Clamping, field by field *)

(** X1. A numeric value that is not below the upper bound of its field
    (larger, equal, [+inf], or NaN, which compares below nothing) is
    replaced by the upper bound. *)
Theorem validate_parameters_clamps_to_upper (d : gmap string pyval) key lo hi v :
  In (key, (lo, hi)) constraints ->
  d !! key = Some v -> isinstance_number v = true ->
  py_compare v hi <> Ok (Some Lt) ->
  exists r, validate_parameters (PDict d) = Ok r /\ r !! key = Some hi.
Proof.
  intros Hin Hd Hnum Hhi.
  destruct (constraints_wf _ _ _ Hin) as [Hlt _].
  destruct (validate_parameters_field d _ _ _ Hin) as (r & u & Hr & Hu & Hfin).
  exists r. split; [exact Hr|].
  unfold field_value in Hu. rewrite Hd, Hnum in Hu.
  rewrite (clamp_high lo hi Hlt v Hnum Hhi) in Hu. injection Hu as <-.
  destruct (int_key key) eqn:Hk; [|exact Hfin].
  destruct (int_key_bounds _ _ _ Hin Hk) as (zlo & zhi & -> & -> & _).
  destruct Hfin as (z & Hz & Hrz). cbn in Hz. congruence.
Qed.

Lemma validate_parameters_clamps_to_upper_witness :
  exists r,
    validate_parameters (PDict {[ "frequency" := PFloat S754_nan ]}) = Ok r /\
    r !! "frequency" = Some (flt 1 1).
Proof.
  apply (validate_parameters_clamps_to_upper
           {[ "frequency" := PFloat S754_nan ]} "frequency" (flt 1 100) (flt 1 1)
           (PFloat S754_nan)).
  - unfold constraints. cbn. tauto.
  - reflexivity.
  - reflexivity.
  - discriminate.
Defined.

(** X2. A numeric value that is not above the lower bound of its field
    (smaller, equal, or [-inf]) is replaced by the lower bound. *)
Theorem validate_parameters_clamps_to_lower
    (d : gmap string pyval) key lo hi v (o : comparison) :
  In (key, (lo, hi)) constraints ->
  d !! key = Some v ->
  py_compare v lo = Ok (Some o) -> o <> Gt ->
  exists r, validate_parameters (PDict d) = Ok r /\ r !! key = Some lo.
Proof.
  intros Hin Hd Hlo Ho.
  destruct (constraints_wf _ _ _ Hin) as [Hlt _].
  destruct (validate_parameters_field d _ _ _ Hin) as (r & u & Hr & Hu & Hfin).
  exists r. split; [exact Hr|].
  unfold field_value in Hu. rewrite Hd in Hu.
  rewrite (py_compare_number_l _ _ _ Hlo) in Hu.
  rewrite (clamp_low lo hi Hlt v o Hlo Ho) in Hu. injection Hu as <-.
  destruct (int_key key) eqn:Hk; [|exact Hfin].
  destruct (int_key_bounds _ _ _ Hin Hk) as (zlo & zhi & -> & -> & _).
  destruct Hfin as (z & Hz & Hrz). cbn in Hz. congruence.
Qed.

Lemma validate_parameters_clamps_to_lower_witness :
  exists r,
    validate_parameters (PDict {[ "octaves" := PInt (-4) ]}) = Ok r /\
    r !! "octaves" = Some (PInt 1).
Proof.
  apply (validate_parameters_clamps_to_lower
           {[ "octaves" := PInt (-4) ]} "octaves" (PInt 1) (PInt 6) (PInt (-4)) Lt).
  - unfold constraints. cbn. tauto.
  - reflexivity.
  - reflexivity.
  - discriminate.
Defined.

(** X3. A value strictly between the bounds of a field that is not
    coerced to an integer is returned as it came, type included: an
    integer given for a float field stays an integer. *)
Theorem validate_parameters_keeps_inside (d : gmap string pyval) key lo hi v :
  In (key, (lo, hi)) constraints -> int_key key = false ->
  d !! key = Some v ->
  py_compare v hi = Ok (Some Lt) -> py_compare v lo = Ok (Some Gt) ->
  exists r, validate_parameters (PDict d) = Ok r /\ r !! key = Some v.
Proof.
  intros Hin Hk Hd Hhi Hlo.
  destruct (validate_parameters_field d _ _ _ Hin) as (r & u & Hr & Hu & Hfin).
  exists r. split; [exact Hr|].
  unfold field_value in Hu. rewrite Hd in Hu.
  rewrite (py_compare_number_l _ _ _ Hlo) in Hu.
  rewrite (clamp_inside lo hi v Hhi Hlo) in Hu. injection Hu as <-.
  rewrite Hk in Hfin. exact Hfin.
Qed.

Lemma validate_parameters_keeps_inside_witness :
  exists r,
    validate_parameters (PDict {[ "amplitude" := PInt 7 ]}) = Ok r /\
    r !! "amplitude" = Some (PInt 7).
Proof.
  apply (validate_parameters_keeps_inside
           {[ "amplitude" := PInt 7 ]} "amplitude" (flt 5 10) (flt 20 1) (PInt 7)).
  - unfold constraints. cbn. tauto.
  - reflexivity.
  - reflexivity.
  - reflexivity.
  - reflexivity.
Defined.

(** X4. For [seed], [octaves] and [terrain_type], a value strictly
    between the bounds is truncated to the integer [z] with
    [z <= v < z + 1]. *)
Theorem validate_parameters_truncates (d : gmap string pyval) key lo hi v :
  In (key, (lo, hi)) constraints -> int_key key = true ->
  d !! key = Some v ->
  py_compare v hi = Ok (Some Lt) -> py_compare v lo = Ok (Some Gt) ->
  exists r z,
    validate_parameters (PDict d) = Ok r /\ r !! key = Some (PInt z) /\
    num_le (PInt z) v = true /\ py_compare v (PInt (z + 1)) = Ok (Some Lt).
Proof.
  intros Hin Hk Hd Hhi Hlo.
  destruct (validate_parameters_field d _ _ _ Hin) as (r & u & Hr & Hu & Hfin).
  unfold field_value in Hu. rewrite Hd in Hu.
  rewrite (py_compare_number_l _ _ _ Hlo) in Hu.
  rewrite (clamp_inside lo hi v Hhi Hlo) in Hu. injection Hu as <-.
  rewrite Hk in Hfin. destruct Hfin as (z & Hz & Hrz).
  destruct (int_key_bounds _ _ _ Hin Hk) as (zlo & zhi & -> & -> & Hb).
  destruct (py_int_floor zlo zhi v ltac:(lia) Hhi Hlo) as (z' & Hz' & Hle & Hlt).
  assert (z' = z) by congruence. subst z'.
  exists r, z. auto.
Qed.

Lemma validate_parameters_truncates_witness :
  exists r z,
    validate_parameters (PDict {[ "octaves" := flt 29 10 ]}) = Ok r /\
    r !! "octaves" = Some (PInt z) /\
    num_le (PInt z) (flt 29 10) = true /\
    py_compare (flt 29 10) (PInt (z + 1)) = Ok (Some Lt).
Proof.
  apply (validate_parameters_truncates
           {[ "octaves" := flt 29 10 ]} "octaves" (PInt 1) (PInt 6) (flt 29 10)).
  - unfold constraints. cbn. tauto.
  - reflexivity.
  - reflexivity.
  - reflexivity.
  - reflexivity.
Defined.

(** ** What the validator reads of its argument *)

(** X5. The validator reads the nine keys of the schema and nothing
    else: two mappings that agree on them validate alike, whatever
    other keys they hold. *)
Theorem validate_parameters_reads_schema_only (d d' : gmap string pyval) :
  (forall key, In key schema_keys -> d !! key = d' !! key) ->
  validate_parameters (PDict d) = validate_parameters (PDict d').
Proof.
  intros Hagree.
  destruct (validate_parameters_dict d)
    as (u1 & u2 & u3 & u4 & u5 & u6 & u7 & u8 & u9 & z1 & z4 & z7 & Hr &
        (E1 & I1 & _) & (E2 & _) & (E3 & _) & (E4 & I4 & _) & (E5 & _) &
        (E6 & _) & (E7 & I7 & _) & (E8 & _) & (E9 & _)).
  destruct (validate_parameters_dict d')
    as (v1 & v2 & v3 & v4 & v5 & v6 & v7 & v8 & v9 & y1 & y4 & y7 & Hr' &
        (F1 & J1 & _) & (F2 & _) & (F3 & _) & (F4 & J4 & _) & (F5 & _) &
        (F6 & _) & (F7 & J7 & _) & (F8 & _) & (F9 & _)).
  rewrite Hr, Hr'.
  unfold field_value in *.
  rewrite <- (Hagree "seed") in F1 by (unfold schema_keys; cbn; tauto).
  rewrite <- (Hagree "frequency") in F2 by (unfold schema_keys; cbn; tauto).
  rewrite <- (Hagree "amplitude") in F3 by (unfold schema_keys; cbn; tauto).
  rewrite <- (Hagree "octaves") in F4 by (unfold schema_keys; cbn; tauto).
  rewrite <- (Hagree "lacunarity") in F5 by (unfold schema_keys; cbn; tauto).
  rewrite <- (Hagree "persistence") in F6 by (unfold schema_keys; cbn; tauto).
  rewrite <- (Hagree "terrain_type") in F7 by (unfold schema_keys; cbn; tauto).
  rewrite <- (Hagree "erosion") in F8 by (unfold schema_keys; cbn; tauto).
  rewrite <- (Hagree "plateau") in F9 by (unfold schema_keys; cbn; tauto).
  assert (u1 = v1) by congruence. assert (u2 = v2) by congruence.
  assert (u3 = v3) by congruence. assert (u4 = v4) by congruence.
  assert (u5 = v5) by congruence. assert (u6 = v6) by congruence.
  assert (u7 = v7) by congruence. assert (u8 = v8) by congruence.
  assert (u9 = v9) by congruence. subst.
  assert (z1 = y1) by congruence. assert (z4 = y4) by congruence.
  assert (z7 = y7) by congruence. subst. reflexivity.
Qed.

Lemma validate_parameters_reads_schema_only_witness :
  validate_parameters (PDict {[ "octaves" := PInt 4; "colour" := PStr "green" ]}) =
  validate_parameters (PDict {[ "octaves" := PInt 4 ]}).
Proof.
  apply validate_parameters_reads_schema_only.
  unfold schema_keys. cbn.
  intros key Hkey.
  repeat (destruct Hkey as [<- | Hkey]; [reflexivity|]). contradiction.
Defined.

(** X6. A mapping with none of the nine keys, the empty one among
    them, validates to the table of defaults. *)
Theorem validate_parameters_no_schema_key (d : gmap string pyval) :
  (forall key, In key schema_keys -> d !! key = None) ->
  validate_parameters (PDict d) = Ok defaults.
Proof.
  intros Hnone.
  destruct (validate_parameters_dict d)
    as (u1 & u2 & u3 & u4 & u5 & u6 & u7 & u8 & u9 & z1 & z4 & z7 & Hr &
        (E1 & I1 & _) & (E2 & _) & (E3 & _) & (E4 & I4 & _) & (E5 & _) &
        (E6 & _) & (E7 & I7 & _) & (E8 & _) & (E9 & _)).
  rewrite Hr. unfold field_value in *.
  rewrite Hnone in E1, E2, E3, E4, E5, E6, E7, E8, E9
    by (unfold schema_keys; cbn; tauto).
  change (dict_getitem defaults "seed") with (Ok (PInt 42)) in E1.
  change (dict_getitem defaults "octaves") with (Ok (PInt 3)) in E4.
  change (dict_getitem defaults "terrain_type") with (Ok (PInt 1)) in E7.
  change (dict_getitem defaults "frequency") with (Ok (flt 1 10)) in E2.
  change (dict_getitem defaults "amplitude") with (Ok (flt 5 1)) in E3.
  change (dict_getitem defaults "lacunarity") with (Ok (flt 2 1)) in E5.
  change (dict_getitem defaults "persistence") with (Ok (flt 5 10)) in E6.
  change (dict_getitem defaults "erosion") with (Ok (flt 0 1)) in E8.
  change (dict_getitem defaults "plateau") with (Ok (flt 0 1)) in E9.
  simplify_eq. cbn [py_int] in *. simplify_eq. reflexivity.
Qed.

Lemma validate_parameters_no_schema_key_witness :
  validate_parameters (PDict ∅) = Ok defaults /\
  validate_parameters (PDict {[ "colour" := PStr "green" ]}) = Ok defaults.
Proof.
  split; apply validate_parameters_no_schema_key;
    unfold schema_keys; cbn; intros key Hkey;
    repeat (destruct Hkey as [<- | Hkey]; [reflexivity|]); contradiction.
Defined.

(** ** The validator on a value that is not a mapping *)

Lemma for_each_ext {A S : Type} (f g : S -> A -> result S) (l : list A) :
  (forall s x, In x l -> f s x = g s x) ->
  forall s, for_each f s l = for_each g s l.
Proof.
  induction l as [|x l IH]; intros Hfg s; [reflexivity|].
  cbn. rewrite Hfg by (left; reflexivity).
  destruct (g s x) as [s'|e]; cbn; [|reflexivity].
  apply IH. intros s0 y Hy. apply Hfg. right. exact Hy.
Qed.

Lemma for_each_raises {A S : Type} (f : S -> A -> result S) (e : exn)
    (bad : A -> bool) (l : list A) :
  (forall s x, In x l -> bad x = true -> f s x = Raise e) ->
  (forall s x, In x l -> bad x = false -> exists s', f s x = Ok s') ->
  existsb bad l = true ->
  forall s, for_each f s l = Raise e.
Proof.
  induction l as [|x l IH]; intros Hbad Hgood Hex s; [discriminate|].
  cbn in *. destruct (bad x) eqn:Hx.
  - rewrite (Hbad s x) by auto. reflexivity.
  - destruct (Hgood s x) as [s' ->]; auto. cbn.
    apply IH; auto.
Qed.

Lemma existsb_fst {A B : Type} (p : A -> bool) (l : list (A * B)) :
  existsb p (map fst l) = existsb (fun c => p c.1) l.
Proof. induction l as [|x l IH]; [reflexivity|]. cbn. rewrite IH. reflexivity. Qed.

Section Oracle.

(** A value on which [key in params] answers [mem key] and
    [params[key]] raises [TypeError]: a list or a string. *)
Variable params : pyval.
Variable mem : string -> bool.
Hypothesis contains_mem : forall key, py_contains params key = Ok (mem key).
Hypothesis getitem_raises : forall key, py_getitem params key = Raise TypeError.

Lemma validate_entry_sequence_present acc key lo hi :
  mem key = true -> validate_entry params acc (key, (lo, hi)) = Raise TypeError.
Proof.
  intros Hm. unfold validate_entry. rewrite contains_mem, Hm. cbn.
  rewrite getitem_raises. reflexivity.
Qed.

Lemma validate_entry_sequence_absent acc key lo hi :
  mem key = false ->
  validate_entry params acc (key, (lo, hi)) = validate_entry (PDict ∅) acc (key, (lo, hi)).
Proof.
  intros Hm. unfold validate_entry. rewrite contains_mem, Hm. reflexivity.
Qed.

Lemma validate_parameters_sequence :
  validate_parameters params =
  if existsb mem schema_keys then Raise TypeError else Ok defaults.
Proof.
  unfold validate_parameters.
  destruct (existsb mem schema_keys) eqn:Hex.
  - rewrite (for_each_raises _ TypeError (fun c => mem c.1)); [reflexivity | | |].
    + intros s [key [lo hi]] _ Hm. apply validate_entry_sequence_present, Hm.
    + intros s [key [lo hi]] Hin Hm.
      rewrite validate_entry_sequence_absent by exact Hm.
      rewrite validate_entry_eq.
      destruct (field_value_settled ∅ _ _ _ Hin) as [u [-> _]]. cbn. eauto.
    + unfold schema_keys in Hex. rewrite existsb_fst in Hex. exact Hex.
  - rewrite (for_each_ext _ (validate_entry (PDict ∅))).
    + reflexivity.
    + intros s [key [lo hi]] Hin. apply validate_entry_sequence_absent.
      assert (Hall : forall k, In k schema_keys -> mem k = false).
      { intros k Hk. destruct (mem k) eqn:Hmk; [|reflexivity].
        rewrite <- Hex. symmetry. apply existsb_exists. eauto. }
      apply Hall. unfold schema_keys. apply in_map_iff.
      exists (key, (lo, hi)). auto.
Qed.

End Oracle.

(** X7. On a value that is not a mapping the validator does not
    always raise.  [None], a boolean or a number raises [TypeError]; a
    list raises [TypeError] when one of its elements is the name of a
    schema key and otherwise validates to the defaults; a string does
    the same with "is a substring" in place of "is an element". *)
Theorem validate_parameters_not_a_mapping :
  validate_parameters PNone = Raise TypeError /\
  (forall b, validate_parameters (PBool b) = Raise TypeError) /\
  (forall z, validate_parameters (PInt z) = Raise TypeError) /\
  (forall f, validate_parameters (PFloat f) = Raise TypeError) /\
  (forall l,
      validate_parameters (PList l) =
      if existsb (fun key => existsb (py_str_eq key) l) schema_keys
      then Raise TypeError else Ok defaults) /\
  (forall s,
      validate_parameters (PStr s) =
      if existsb (fun key => contains key s) schema_keys
      then Raise TypeError else Ok defaults).
Proof.
  repeat split; try reflexivity.
  - intros l. apply validate_parameters_sequence; reflexivity.
  - intros s. apply validate_parameters_sequence; reflexivity.
Qed.

Lemma defaults_dom :
  dom defaults = list_to_set schema_keys.
Proof. apply mk_record_dom. Qed.

(** Whatever the argument, a record returned by the validator has the
    nine keys of the schema. *)
Lemma validate_parameters_dom (params : pyval) (r : gmap string pyval) :
  validate_parameters params = Ok r -> dom r = list_to_set schema_keys.
Proof.
  destruct params as [|b|z|f|s|l|d]; try discriminate.
  - rewrite (validate_parameters_sequence (PStr s) (fun key => contains key s))
      by reflexivity.
    destruct (existsb _ _); [discriminate|].
    intros [= <-]. apply defaults_dom.
  - rewrite (validate_parameters_sequence (PList l)
               (fun key => existsb (py_str_eq key) l)) by reflexivity.
    destruct (existsb _ _); [discriminate|].
    intros [= <-]. apply defaults_dom.
  - destruct (validate_parameters_dict d)
      as (u1 & u2 & u3 & u4 & u5 & u6 & u7 & u8 & u9 & z1 & z4 & z7 & Hr & _).
    rewrite Hr. intros [= <-]. apply mk_record_dom.
Qed.

(** ** Further properties of the heuristic analyzer *)

(** X8. The heuristic analyzer never raises: it returns a record with
    the nine keys of the schema, whose seed is an integer of
    [0, 10000), the upper bound 10000 of the schema excluded. *)
Theorem fallback_analysis_record (entropy : list Byte.byte) (text : string) :
  exists r z,
    fallback_analysis entropy text = Ok r /\
    dom r = list_to_set schema_keys /\
    r !! "seed" = Some (PInt z) /\ 0 <= z < 10000.
Proof.
  pose proof (Z.mod_pos_bound (int_from_bytes_big entropy) 10000 ltac:(lia)) as Hseed.
  eexists. eexists. split; [apply fallback_analysis_closed_form|].
  split; [apply mk_record_dom|]. split; [reflexivity | exact Hseed].
Qed.





(** ** Properties of the keyword extractor *)



Lemma prefix_app_l (a b t : string) :
  String.prefix (a +:+ b) t = true -> String.prefix a t = true.
Proof.
  revert t. induction a as [|c a IH]; intros t; [destruct t; reflexivity|].
  change (String c a +:+ b) with (String c (a +:+ b)).
  destruct t as [|c' t]; cbn; [discriminate|].
  match goal with
  | |- context [if ?x then _ else _] => destruct x
  end; [apply IH | discriminate].
Qed.

Lemma contains_app_l (a b t : string) :
  contains (a +:+ b) t = true -> contains a t = true.
Proof.
  induction t as [|c t IH]; cbn [contains].
  - rewrite !orb_false_r. apply prefix_app_l.
  - intros [H | H]%orb_true_iff; apply orb_true_iff.
    + left. eapply prefix_app_l, H.
    + right. apply IH, H.
Qed.

Ltac in_list :=
  apply list_elem_of_In; apply (bool_decide_unpack _); vm_compute; exact I.

(** X11. Matching is by substring, so a plural is never reported
    without its singular: where [mountains], [hills], [valleys] or
    [plains] is among the keywords, so is [mountain], [hill], [valley]
    or [plain]. *)
Theorem extract_keywords_plural (text : string) (singular : string) :
  In singular ["mountain"; "hill"; "valley"; "plain"]%string ->
  In (singular +:+ "s") (extract_keywords text) ->
  In singular (extract_keywords text).
Proof.
  intros Hs Hplural.
  unfold extract_keywords in *. cbv zeta in *.
  apply filter_In in Hplural as [_ Hc].
  apply filter_In. split.
  - cbn [In] in Hs.
    repeat (destruct Hs as [<- | Hs]; [in_list|]). contradiction.
  - eapply contains_app_l, Hc.
Qed.

Lemma extract_keywords_plural_witness :
  In "hill"%string (extract_keywords "Rolling HILLS").
Proof.
  apply (extract_keywords_plural "Rolling HILLS" "hill").
  - in_list.
  - in_list.
Defined.

(** ** Further properties of the analyzer and the orchestrator *)

Lemma validate_parameters_ranges (d : gmap string pyval) :
  exists r,
    validate_parameters (PDict d) = Ok r /\
    Forall (fun c => exists v, r !! c.1 = Some v /\ in_range c.2.1 c.2.2 v = true)
      constraints.
Proof.
  destruct (validate_parameters_dict d)
    as (u1 & u2 & u3 & u4 & u5 & u6 & u7 & u8 & u9 & z1 & z4 & z7 & Hr &
        (_ & _ & R1) & (_ & S2) & (_ & S3) & (_ & _ & R4) & (_ & S5) &
        (_ & S6) & (_ & _ & R7) & (_ & S8) & (_ & S9)).
  eexists. split; [exact Hr|].
  unfold constraints.
  repeat (apply Forall_cons; split); try apply Forall_nil; cbn [fst snd];
    first [ exact I
          | eexists; split; [reflexivity|];
            first [ apply int_in_range; assumption
                  | apply settled_in_range; [reflexivity | assumption] ] ].
Qed.

Lemma fallback_analysis_in_range (entropy : list Byte.byte) (text : string) :
  any_in mountain_words (lower text) && any_in large_words (lower text) = false ->
  exists r,
    fallback_analysis entropy text = Ok r /\
    Forall (fun c => exists v, r !! c.1 = Some v /\ in_range c.2.1 c.2.2 v = true)
      constraints.
Proof.
  intros Hok.
  pose proof (Z.mod_pos_bound (int_from_bytes_big entropy) 10000 ltac:(lia)) as Hseed.
  destruct (heuristic_other_fields_in_range (lower text))
    as (Ho & Hl & Hp & Ht & He & Hpl).
  pose proof (heuristic_frequency_in_range (lower text)) as Hf.
  assert (Ha : in_range (flt 5 10) (flt 20 1)
                 (PFloat (heuristic_amplitude (lower text))) = true).
  { destruct (heuristic_amplitude_in_range (lower text)) as [H | (_ & Hm & Hl')];
      [exact H|]. rewrite Hm, Hl' in Hok. discriminate. }
  eexists. split; [apply fallback_analysis_closed_form|].
  unfold constraints.
  repeat (apply Forall_cons; split); try apply Forall_nil; cbn [fst snd];
    first [ exact I
          | eexists; split; [reflexivity|];
            first [ assumption | apply int_in_range; lia ] ].
Qed.

Lemma fallback_analysis_ok (entropy : list Byte.byte) (text : string) :
  exists r, fallback_analysis entropy text = Ok r /\
            dom r = list_to_set schema_keys.
Proof.
  eexists. split; [apply fallback_analysis_closed_form | apply mk_record_dom].
Qed.

Lemma analyze_terrain_request_ok
    (self : VoiceTerrainProcessor) (w : World) (text : string) :
  exists r,
    analyze_terrain_request self w text = Ok r /\
    dom r = list_to_set schema_keys.
Proof.
  pose proof (fallback_analysis_ok (urandom4 w) text) as Hfb.
  unfold analyze_terrain_request.
  destruct (openai_client self) as [client|]; [|exact Hfb].
  destruct (client text) as [response_text|e]; cbn [mbind result_bind];
    [|destruct e; exact Hfb].
  destruct (json_loads w response_text) as [parameters|e]; cbn [mbind result_bind];
    [|destruct e; exact Hfb].
  destruct (validate_parameters parameters) as [r|e] eqn:Hv;
    [|destruct e; exact Hfb].
  exists r. split; [reflexivity|]. eapply validate_parameters_dom, Hv.
Qed.


(** X13. When the remote response parses to an object, the analysis is
    the validation of that object, and every field of it is inside
    its range, whatever the object holds. *)
Theorem analyze_terrain_request_remote_object
    (self : VoiceTerrainProcessor) (w : World) (text : string)
    (client : string -> result string) (response_text : string)
    (d : gmap string pyval) :
  openai_client self = Some client ->
  client text = Ok response_text ->
  json_loads w response_text = Ok (PDict d) ->
  exists r,
    analyze_terrain_request self w text = Ok r /\
    validate_parameters (PDict d) = Ok r /\
    Forall (fun c => exists v, r !! c.1 = Some v /\ in_range c.2.1 c.2.2 v = true)
      constraints.
Proof.
  intros Hc Hresp Hjson.
  destruct (validate_parameters_ranges d) as (r & Hr & Hrange).
  exists r. split; [|split; assumption].
  unfold analyze_terrain_request. rewrite Hc, Hresp. cbn [mbind result_bind].
  rewrite Hjson. cbn [mbind result_bind]. rewrite Hr. reflexivity.
Qed.

Lemma analyze_terrain_request_remote_object_witness :
  let self := {| openai_client := Some (fun _ => Ok "{}"%string);
                 whisper_model := None |} in
  let w := {| path_exists := fun _ => true;
              path_stem := fun p => p;
              json_loads := fun _ => Ok (PDict {[ "amplitude" := PInt 999 ]});
              urandom4 := [] |} in
  exists r,
    analyze_terrain_request self w "mountains" = Ok r /\
    validate_parameters (PDict {[ "amplitude" := PInt 999 ]}) = Ok r /\
    Forall (fun c => exists v, r !! c.1 = Some v /\ in_range c.2.1 c.2.2 v = true)
      constraints.
Proof.
  intros self w.
  apply (analyze_terrain_request_remote_object self w "mountains"
           (fun _ => Ok "{}"%string) "{}" {[ "amplitude" := PInt 999 ]});
    reflexivity.
Defined.

(** The three outcomes of the orchestrator. *)
Lemma process_voice_command_cases
    (self : VoiceTerrainProcessor) (w : World) (audio_file_path : string) :
  (path_exists w audio_file_path = false /\
   process_voice_command self w audio_file_path =
     ([], Ok {[ "error" := PStr ("Audio file not found: " +:+ audio_file_path) ]})) \/
  (path_exists w audio_file_path = true /\
   transcribe_audio self w audio_file_path = ""%string /\
   process_voice_command self w audio_file_path =
     ([Transcription], Ok {[ "error" := PStr "Failed to transcribe audio" ]})) \/
  (exists text parameters,
     path_exists w audio_file_path = true /\
     transcribe_audio self w audio_file_path = text /\ text <> ""%string /\
     dom parameters = list_to_set schema_keys /\
     process_voice_command self w audio_file_path =
       ([Transcription; Analysis; KeywordExtraction],
        Ok (py_dict
              [ ("text", PStr text);
                ("parameters", PDict parameters);
                ("keywords", PList (map PStr (extract_keywords text)));
                ("success", PBool true) ]))).
Proof.
  unfold process_voice_command.
  destruct (path_exists w audio_file_path); cbn [negb]; [|left; auto].
  right.
  destruct (String.eqb_spec (transcribe_audio self w audio_file_path) "") as [He | Hne].
  - left. auto.
  - right.
    destruct (analyze_terrain_request_ok self w
                (transcribe_audio self w audio_file_path)) as (r & Hr & Hdom).
    rewrite Hr. exists (transcribe_audio self w audio_file_path), r. auto.
Qed.

Lemma result_record_dom (a b c d : pyval) :
  dom (py_dict [("text", a); ("parameters", b); ("keywords", c); ("success", d)])
  = ({[ "text"; "parameters"; "keywords"; "success" ]} : gset string).
Proof. reflexivity. Qed.

(** X14. The orchestrator never raises, and the record it returns has
    one of two shapes: the single key [error], after no stage or after
    transcription alone; or the four keys [text], [parameters],
    [keywords], [success] after all three stages, with [success] true
    and nine-key parameters. *)
Theorem process_voice_command_shape
    (self : VoiceTerrainProcessor) (w : World) (audio_file_path : string) :
  exists stages result,
    process_voice_command self w audio_file_path = (stages, Ok result) /\
    ((dom result = {[ "error" ]} /\ (stages = [] \/ stages = [Transcription])) \/
     (dom result = {[ "text"; "parameters"; "keywords"; "success" ]} /\
      stages = [Transcription; Analysis; KeywordExtraction] /\
      result !! "success" = Some (PBool true) /\
      exists parameters,
        result !! "parameters" = Some (PDict parameters) /\
        dom parameters = list_to_set schema_keys)).
Proof.
  destruct (process_voice_command_cases self w audio_file_path)
    as [(_ & ->) | [(_ & _ & ->) | (text & parameters & _ & _ & _ & Hdom & ->)]];
    eexists; eexists; (split; [reflexivity|]).
  - left. split; [apply dom_singleton_L | auto].
  - left. split; [apply dom_singleton_L | auto].
  - right. split; [apply result_record_dom|]. split; [reflexivity|].
    split; [reflexivity|]. exists parameters. split; [reflexivity | exact Hdom].
Qed.


(** X15. With neither a speech model nor a remote client, and a file
    that exists, the orchestrator runs all three stages; the text is
    one of the seven canned phrases, and every field of the parameters
    is inside its range: no canned phrase reaches the amplitude
    overshoot of the heuristic analyzer. *)
Theorem process_voice_command_offline
    (self : VoiceTerrainProcessor) (w : World) (audio_file_path : string) :
  whisper_model self = None -> openai_client self = None ->
  path_exists w audio_file_path = true ->
  exists text parameters,
    In text (default_phrase :: map snd fallback_phrases) /\
    process_voice_command self w audio_file_path =
      ([Transcription; Analysis; KeywordExtraction],
       Ok (py_dict
             [ ("text", PStr text);
               ("parameters", PDict parameters);
               ("keywords", PList (map PStr (extract_keywords text)));
               ("success", PBool true) ])) /\
    Forall (fun c => exists v, parameters !! c.1 = Some v /\
                               in_range c.2.1 c.2.2 v = true)
      constraints.
Proof.
  intros Hw Hc Hex.
  unfold process_voice_command, transcribe_audio, analyze_terrain_request.
  rewrite Hex, Hw, Hc. cbn [negb].
  unfold fallback_transcription, fallback_phrases. cbn [first_phrase].
  generalize (lower (path_stem w audio_file_path)) as filename. intros filename.
  repeat match goal with
         | |- context [if contains ?k ?f then _ else _] => destruct (contains k f)
         end;
    match goal with
    | |- context [fallback_analysis ?e ?t] =>
        destruct (fallback_analysis_in_range e t) as (r & Hr & Hrange);
        [vm_compute; reflexivity|];
        exists t, r; rewrite Hr;
        split; [in_list | split; [reflexivity | exact Hrange]]
    end.
Qed.

Lemma process_voice_command_offline_witness :
  let self := {| openai_client := None; whisper_model := None |} in
  let w := {| path_exists := fun _ => true;
              path_stem := fun _ => "mountain_test"%string;
              json_loads := fun _ => Raise JSONDecodeError;
              urandom4 := [] |} in
  exists text parameters,
    In text (default_phrase :: map snd fallback_phrases) /\
    process_voice_command self w "mountain_test.wav" =
      ([Transcription; Analysis; KeywordExtraction],
       Ok (py_dict
             [ ("text", PStr text);
               ("parameters", PDict parameters);
               ("keywords", PList (map PStr (extract_keywords text)));
               ("success", PBool true) ])) /\
    Forall (fun c => exists v, parameters !! c.1 = Some v /\
                               in_range c.2.1 c.2.2 v = true)
      constraints.
Proof.
  intros self w.
  apply (process_voice_command_offline self w "mountain_test.wav"); reflexivity.
Defined.

(** ** Properties of start-up and of the entry point *)

Lemma main_single (h : Host) (w : World) (argv : list string) :
  exists indent obj, main h w argv = [JsonDump indent obj].
Proof.
  unfold main.
  destruct argv as [|a0 [|a1 [|a2 rest]]]; try (eexists; eexists; reflexivity).
  destruct (VoiceTerrainProcessor_init h) as [processor|e]; cbn [mbind result_bind];
    [|eexists; eexists; reflexivity].
  destruct (process_voice_command processor w a1).2; eexists; eexists; reflexivity.
Qed.

(** X16. [main] prints one JSON object and nothing else, whatever
    happens: the usage record when [sys.argv] does not have two
    entries, and otherwise a record whose only key is [error] or the
    four-key record of a successful run. *)
Theorem main_prints_one_object (h : Host) (w : World) (argv : list string) :
  exists indent obj,
    main h w argv = [JsonDump indent obj] /\
    (dom obj = {[ "error" ]} \/
     dom obj = {[ "text"; "parameters"; "keywords"; "success" ]}) /\
    (length argv = 2%nat \/ (indent = None /\ obj = usage_record)).
Proof.
  unfold main.
  destruct argv as [|a0 [|a1 [|a2 rest]]];
    try (eexists; eexists; split; [reflexivity|];
         split; [left; apply dom_singleton_L | right; split; reflexivity]).
  destruct (VoiceTerrainProcessor_init h) as [processor|e]; cbn [mbind result_bind].
  - destruct (process_voice_command_cases processor w a1)
      as [(_ & ->) | [(_ & _ & ->) | (text & parameters & _ & _ & _ & _ & ->)]];
      cbn [snd]; eexists; eexists; (split; [reflexivity|]);
      (split; [|left; reflexivity]).
    + left. apply dom_singleton_L.
    + left. apply dom_singleton_L.
    + right. apply result_record_dom.
  - eexists. eexists. split; [reflexivity|].
    split; [left; apply dom_singleton_L | left; reflexivity].
Qed.

(** X17. Standard output is the JSON object of [main], preceded by one
    line of plain text for each library that does not import: it is a
    lone JSON document exactly when both libraries are installed. *)
Theorem script_stdout (h : Host) (w : World) (argv : list string) :
  exists warnings indent obj,
    script h w argv = map Text warnings ++ [JsonDump indent obj] /\
    main h w argv = [JsonDump indent obj] /\
    length warnings =
      ((if openai_installed h then 0 else 1) +
       (if whisper_installed h then 0 else 1))%nat /\
    (script h w argv = [JsonDump indent obj] <->
     openai_installed h = true /\ whisper_installed h = true).
Proof.
  destruct (main_single h w argv) as (indent & obj & Hmain).
  unfold script, import_module. rewrite Hmain.
  destruct (openai_installed h), (whisper_installed h); cbn [app].
  - exists [], indent, obj. repeat split; auto.
  - eexists [_], indent, obj. repeat split; try reflexivity; try discriminate.
    intros [_ H]. discriminate H.
  - eexists [_], indent, obj. repeat split; try reflexivity; try discriminate.
    intros [H _]. discriminate H.
  - eexists [_; _], indent, obj. repeat split; try reflexivity; try discriminate.
    intros [H _]. discriminate H.
Qed.

(** X18. Without the library, or with no key in the environment (unset
    or empty) and no key file, the processor is built with no remote
    client, and every analysis is the heuristic one. *)
Theorem init_without_credentials (h : Host) :
  openai_installed h = false \/
  (falsy_str (getenv_api_key h) = true /\ api_key_file h = None) ->
  exists self,
    VoiceTerrainProcessor_init h = Ok self /\
    openai_client self = None /\
    whisper_model self = setup_whisper h /\
    forall w text,
      analyze_terrain_request self w text = fallback_analysis (urandom4 w) text.
Proof.
  intros Hno.
  assert (Hsetup : setup_openai h = Ok None).
  { unfold setup_openai.
    destruct (openai_installed h); cbn [negb]; [|reflexivity].
    destruct Hno as [Hno | [Hfalsy Hfile]]; [discriminate|].
    rewrite Hfalsy, Hfile. reflexivity. }
  unfold VoiceTerrainProcessor_init. rewrite Hsetup. cbn [mbind result_bind].
  eexists. split; [reflexivity|]. repeat split.
Qed.

Lemma init_without_credentials_witness :
  let h := {| openai_installed := true; whisper_installed := false;
              getenv_api_key := Some ""%string; api_key_file := None;
              new_client := fun _ => Raise RemoteError;
              load_model := Raise RemoteError;
              exn_str := fun _ => "error"%string |} in
  exists self,
    VoiceTerrainProcessor_init h = Ok self /\
    openai_client self = None /\
    whisper_model self = setup_whisper h /\
    forall w text,
      analyze_terrain_request self w text = fallback_analysis (urandom4 w) text.
Proof.
  intros h. apply (init_without_credentials h).
  right. split; reflexivity.
Defined.

(** X19. A key file that exists but cannot be read stops the run: with
    the library installed and no key in the environment, the exception
    of [read_text()] leaves the constructor, and [main] prints
    [{error: str(e)}] without looking at the audio file. *)
Theorem main_unreadable_key_file
    (h : Host) (w : World) (script_name audio_file_path : string) (e : exn) :
  openai_installed h = true ->
  falsy_str (getenv_api_key h) = true ->
  api_key_file h = Some (Raise e) ->
  VoiceTerrainProcessor_init h = Raise e /\
  main h w [script_name; audio_file_path] =
    [JsonDump None {[ "error" := PStr (exn_str h e) ]}].
Proof.
  intros Hinst Hfalsy Hfile.
  assert (Hinit : VoiceTerrainProcessor_init h = Raise e).
  { unfold VoiceTerrainProcessor_init, setup_openai.
    rewrite Hinst, Hfalsy, Hfile. reflexivity. }
  split; [exact Hinit|].
  unfold main. rewrite Hinit. reflexivity.
Qed.

Lemma main_unreadable_key_file_witness :
  let h := {| openai_installed := true; whisper_installed := true;
              getenv_api_key := None; api_key_file := Some (Raise RemoteError);
              new_client := fun _ => Raise RemoteError;
              load_model := Raise RemoteError;
              exn_str := fun _ => "Permission denied"%string |} in
  let w := {| path_exists := fun _ => false;
              path_stem := fun p => p;
              json_loads := fun _ => Raise JSONDecodeError;
              urandom4 := [] |} in
  VoiceTerrainProcessor_init h = Raise RemoteError /\
  main h w ["voice_processor.py"; "hills.wav"]%string =
    [JsonDump None {[ "error" := PStr "Permission denied" ]}].
Proof.
  intros h w.
  apply (main_unreadable_key_file h w "voice_processor.py" "hills.wav" RemoteError);
    reflexivity.
Defined.

(** X20. A non-empty key in the environment wins over the key file:
    the file is not read, so its content and even its readability do
    not matter, and the client is built from the key as it stands. *)
Theorem setup_openai_env_precedence
    (h : Host) (api_key : string) (other_file : option (result string)) :
  getenv_api_key h = Some api_key -> api_key <> ""%string ->
  setup_openai h =
    setup_openai {| openai_installed := openai_installed h;
                    whisper_installed := whisper_installed h;
                    getenv_api_key := getenv_api_key h;
                    api_key_file := other_file;
                    new_client := new_client h;
                    load_model := load_model h;
                    exn_str := exn_str h |} /\
  (openai_installed h = true ->
   setup_openai h =
     Ok (match new_client h api_key with
         | Ok client => Some client
         | Raise _ => None
         end)).
Proof.
  intros Henv Hne.
  assert (Hfalsy : falsy_str (getenv_api_key h) = false).
  { rewrite Henv. cbn. apply String.eqb_neq, Hne. }
  unfold setup_openai. cbn [openai_installed getenv_api_key api_key_file new_client].
  rewrite Hfalsy. split; [reflexivity|].
  intros ->. cbn [negb mbind result_bind mret result_ret]. rewrite Henv.
  destruct (new_client h api_key); reflexivity.
Qed.

Lemma setup_openai_env_precedence_witness :
  let h := {| openai_installed := true; whisper_installed := true;
              getenv_api_key := Some "sk-test"%string;
              api_key_file := Some (Raise RemoteError);
              new_client := fun _ => Ok (fun _ => Ok "{}"%string);
              load_model := Raise RemoteError;
              exn_str := fun _ => "error"%string |} in
  setup_openai h = Ok (Some (fun _ => Ok "{}"%string)).
Proof.
  intros h.
  apply (proj2 (setup_openai_env_precedence h "sk-test" None eq_refl ltac:(discriminate))).
  reflexivity.
Defined.





Lemma transcribe_audio_depends_on_model
    (self self' : VoiceTerrainProcessor) (w : World) (audio_file_path : string) :
  whisper_model self = whisper_model self' ->
  transcribe_audio self w audio_file_path = transcribe_audio self' w audio_file_path.
Proof. intros H. unfold transcribe_audio. rewrite H. reflexivity. Qed.

(** X22. The remote client bears on the parameters only: two
    processors with the same speech model enter the same stages and
    return records that agree once [parameters] is removed. *)
Theorem process_voice_command_client_only_parameters
    (self self' : VoiceTerrainProcessor) (w : World) (audio_file_path : string) :
  whisper_model self = whisper_model self' ->
  exists stages result result',
    process_voice_command self w audio_file_path = (stages, Ok result) /\
    process_voice_command self' w audio_file_path = (stages, Ok result') /\
    delete "parameters" result = delete "parameters" result'.
Proof.
  intros Hmodel.
  pose proof (transcribe_audio_depends_on_model self self' w audio_file_path Hmodel)
    as Htext.
  unfold process_voice_command. rewrite <- Htext.
  destruct (path_exists w audio_file_path); cbn [negb];
    [|eexists; eexists; eexists; repeat split].
  destruct (String.eqb (transcribe_audio self w audio_file_path) "");
    [eexists; eexists; eexists; repeat split|].
  destruct (analyze_terrain_request_ok self w
              (transcribe_audio self w audio_file_path)) as (r & -> & _).
  destruct (analyze_terrain_request_ok self' w
              (transcribe_audio self w audio_file_path)) as (r' & -> & _).
  eexists. eexists. eexists. repeat split.
Qed.

Lemma process_voice_command_client_only_parameters_witness :
  let self := {| openai_client := None; whisper_model := None |} in
  let self' := {| openai_client := Some (fun _ => Ok "[]"%string);
                  whisper_model := None |} in
  let w := {| path_exists := fun _ => true;
              path_stem := fun _ => "mountain_test"%string;
              json_loads := fun _ => Ok (PList []);
              urandom4 := [] |} in
  exists stages result result',
    process_voice_command self w "mountain_test.wav" = (stages, Ok result) /\
    process_voice_command self' w "mountain_test.wav" = (stages, Ok result') /\
    delete "parameters" result = delete "parameters" result'.
Proof.
  intros self self' w.
  apply (process_voice_command_client_only_parameters self self' w "mountain_test.wav").
  reflexivity.
Defined.

